(** * Dyson cloud integration: the entry setup routine and the config wizard

    A shallow embedding of [custom_components/dyson_cloud/__init__.py] and
    [custom_components/dyson_cloud/config_flow.py].

    The integration is glue between two collaborators that are not part of
    the repository: the [libdyson] cloud SDK and the Home Assistant host.
    Both are kept abstract: their state is a type [Env] and their operations
    are the fields of the class [External].  What the Python code itself
    does (dictionary accesses, exception handlers, assignments to [self],
    the loop over the devices) is written out in a state and exception
    monad. *)

From stdpp Require Import base option list strings gmap.

Set Default Proof Using "Type".

(** ** Exceptions *)

(** The exception classes the two files name, and the built-in ones their
    dictionary accesses and calls can raise.  The four [Dyson...] classes are
    direct, unrelated subclasses of the SDK's base exception, so an [except]
    clause for one of them catches exactly that constructor. *)
Inductive exn : Type :=
  | DysonNetworkError
  | DysonInvalidAccountStatus
  | DysonLoginFailure
  | DysonOTPTooFrequently
  | ConfigEntryNotReady (cause : exn)   (* raise ConfigEntryNotReady from cause *)
  | AbortFlow (reason : string)
  | KeyError (key : string)
  | TypeError
  | OtherException (name : string).

(** ** The state and exception monad *)

Definition Res (A : Type) : Type := (exn + A)%type.

Definition M (W A : Type) : Type := W -> Res A * W.

Definition ret {W A : Type} (a : A) : M W A := fun w => (inr a, w).

Definition raise {W A : Type} (e : exn) : M W A := fun w => (inl e, w).

Definition bind {W A B : Type} (m : M W A) (k : A -> M W B) : M W B :=
  fun w =>
    match m w with
    | (inr a, w') => k a w'
    | (inl e, w') => (inl e, w')
    end.

(** [try m] runs [m] and hands its outcome, value or exception, to the
    handlers that follow; the effects of [m] up to the exception stay. *)
Definition try {W A : Type} (m : M W A) : M W (Res A) :=
  fun w => let '(r, w') := m w in (inr r, w').

Definition gets {W A : Type} (f : W -> A) : M W A := fun w => (inr (f w), w).

Definition modify {W : Type} (f : W -> W) : M W unit := fun w => (inr tt, f w).

Notation "'let!' x ':=' c 'in' k" := (bind c (fun x => k))
  (at level 10, x pattern, c at level 100, k at level 200,
   format "'let!'  x  ':='  c  'in' '//' k").
Notation "c ';;;' k" := (bind c (fun _ => k))
  (at level 100, k at level 200, right associativity,
   format "c  ';;;' '//' k").

(** [for x in l: body x] *)
Fixpoint for_each {W A : Type} (l : list A) (body : A -> M W unit) : M W unit :=
  match l with
  | [] => ret tt
  | x :: l' => body x ;;; for_each l' body
  end.

(** [d[k]] on a dictionary: the value, or [KeyError]. *)
Definition getitem {W V : Type} (d : gmap string V) (k : string) : M W V :=
  match d !! k with
  | Some v => ret v
  | None => raise (KeyError k)
  end.

(** ** Constants *)

(** Modelled from the spec: [const.py] is not among the sources.  The spec
    gives the config-entry schema as [{region, auth}]; the domain is the name
    of the component's directory. *)
Definition CONF_REGION : string := "region".
Definition CONF_AUTH : string := "auth".
Definition DOMAIN : string := "dyson_cloud".

(** [homeassistant.const] and [homeassistant.config_entries]. *)
Definition CONF_EMAIL : string := "email".
Definition CONF_PASSWORD : string := "password".
Definition SOURCE_DISCOVERY : string := "discovery".

(** [custom_components.dyson_local.DOMAIN]. *)
Definition DYSON_LOCAL_DOMAIN : string := "dyson_local".

(** [config_flow.py] *)
Definition CONF_MOBILE : string := "mobile".
Definition CONF_OTP : string := "otp".

(** [__init__.py] *)
Definition PLATFORMS : list string := ["camera"].

Section Integration.

(** The SDK's auth payload, the SDK's device descriptor, and the state of
    everything outside the repository (cloud service and host). *)
Context {Auth Device Env : Type}.

(** ** Data *)

(** The Python values that are stored in an entry's [data] dictionary and
    handed to the account constructors. *)
Inductive Value : Type :=
  | VNone
  | VStr (s : string)
  | VAuth (a : Auth).

(** [self._region], [self._email], [self._mobile] are a string or [None]. *)
Definition of_opt (o : option string) : Value :=
  match o with Some s => VStr s | None => VNone end.

(** [x == "..."] for a stored value. *)
Definition value_is_str (v : Value) (s : string) : bool :=
  match v with VStr s' => bool_decide (s' = s) | _ => false end.

(** [DysonAccount(auth_info)] and [DysonAccountCN(auth_info)]; the
    argument defaults to [None]. *)
Inductive Account : Type :=
  | DysonAccount (auth_info : Value)
  | DysonAccountCN (auth_info : Value).

Record ConfigEntry : Type := {
  entry_id : string;
  unique_id : option string;
  title : string;
  data : gmap string Value
}.

(** The dictionary [{DATA_ACCOUNT: account, DATA_DEVICES: devices}]; its two
    keys are constants of [const.py] and become the two fields. *)
Record RuntimeData : Type := {
  DATA_ACCOUNT : Account;
  DATA_DEVICES : list Device
}.

(** [hass.config_entries.flow.async_init(domain, context={"source": source},
    data=data)], wrapped in a task. *)
Record FlowInit : Type := {
  init_domain : string;
  init_source : string;
  init_data : Device
}.

(** What an account's login call returns and [self._verify] holds: a
    callable of the SDK, applied to its positional arguments. *)
Definition Callable : Type := list string -> Env -> Res Value * Env.

(** ** The collaborators *)

Class External : Type := {
  (* libdyson *)
  REGIONS : list (string * string);
  devices : Account -> Env -> Res (list Device) * Env;
  login_email_otp : Account -> string -> option string -> Env -> Res Callable * Env;
  login_mobile_otp : Account -> string -> Env -> Res Callable * Env;
  (* homeassistant: ConfigFlow and ConfigEntries *)
  _async_current_entries : Env -> list ConfigEntry;
  async_set_unique_id : string -> Env -> Res unit * Env;
  _abort_if_unique_id_configured : Env -> Res unit * Env;
  async_forward_entry_setups : ConfigEntry -> list string -> Env -> Res unit * Env;
  (* what that call leaves in hass.data, given what it found there: the host
     sets the platforms up on the same hass *)
  forward_writes :
    ConfigEntry -> list string -> Env ->
    gmap string (gmap string RuntimeData) -> gmap string (gmap string RuntimeData)
}.

Context `{External}.

(** ** [__init__.py] *)

Record Hass : Type := {
  hass_env : Env;
  (* hass.data *)
  hass_data : gmap string (gmap string RuntimeData);
  (* the tasks handed to hass.async_create_task, oldest first *)
  hass_tasks : list FlowInit;
  (* _LOGGER.error records, oldest first *)
  hass_log : list string
}.

(** [await hass.async_add_executor_job(f)]: a call of the SDK that the
    executor runs; it is not handed [hass]. *)
Definition hass_call {A : Type} (f : Env -> Res A * Env) : M Hass A :=
  fun h =>
    let '(r, e) := f (hass_env h) in
    (r, {| hass_env := e; hass_data := hass_data h;
           hass_tasks := hass_tasks h; hass_log := hass_log h |}).

(** The registry [hass.data[DOMAIN]] is the integration's own.  Its
    platforms ([camera.py] is not among the sources) are taken to read it
    only, so of what a host call leaves in [hass.data] everything counts but
    the registry, which stays as it was before the call. *)
Definition keep_registry (before after : gmap string (gmap string RuntimeData))
    : gmap string (gmap string RuntimeData) :=
  match before !! DOMAIN with
  | Some registry => <[DOMAIN := registry]> after
  | None => delete DOMAIN after
  end.

(** [await hass.config_entries.async_forward_entry_setups(entry, platforms)]:
    the host sets the platforms up on this same [hass], and what it sets up
    may write [hass.data], also when the call ends in an exception. *)
Definition hass_forward (entry : ConfigEntry) (platforms : list string)
    : M Hass unit :=
  fun h =>
    let '(r, e) := async_forward_entry_setups entry platforms (hass_env h) in
    (r, {| hass_env := e;
           hass_data :=
             keep_registry (hass_data h)
               (forward_writes entry platforms (hass_env h) (hass_data h));
           hass_tasks := hass_tasks h; hass_log := hass_log h |}).

Definition set_hass_data (d : gmap string (gmap string RuntimeData)) : M Hass unit :=
  modify (fun h => {| hass_env := hass_env h; hass_data := d;
                      hass_tasks := hass_tasks h; hass_log := hass_log h |}).

Definition async_create_task (t : FlowInit) : M Hass unit :=
  modify (fun h => {| hass_env := hass_env h; hass_data := hass_data h;
                      hass_tasks := hass_tasks h ++ [t]; hass_log := hass_log h |}).

Definition logger_error (msg : string) : M Hass unit :=
  modify (fun h => {| hass_env := hass_env h; hass_data := hass_data h;
                      hass_tasks := hass_tasks h; hass_log := hass_log h ++ [msg] |}).

Definition async_setup (config : gmap string Value) : M Hass bool :=
  let! d := gets hass_data in
  set_hass_data (<[DOMAIN := ∅]> d) ;;;
  ret true.

(** The account the setup routine builds from the entry. *)
Definition make_account (entry : ConfigEntry) : M Hass Account :=
  let! region := getitem (data entry) CONF_REGION in
  if value_is_str region "CN" then
    let! auth := getitem (data entry) CONF_AUTH in
    ret (DysonAccountCN auth)
  else
    let! auth := getitem (data entry) CONF_AUTH in
    ret (DysonAccount auth).

Definition discovery_task (device : Device) : FlowInit :=
  {| init_domain := DYSON_LOCAL_DOMAIN;
     init_source := SOURCE_DISCOVERY;
     init_data := device |}.

Definition async_setup_entry (entry : ConfigEntry) : M Hass bool :=
  let! account := make_account entry in
  let! listing := try (hass_call (devices account)) in
  match listing with
  | inl DysonNetworkError =>
      logger_error "Cannot connect to Dyson cloud service" ;;;
      raise (ConfigEntryNotReady DysonNetworkError)
  | inl err => raise err
  | inr devs =>
      for_each devs (fun device => async_create_task (discovery_task device)) ;;;
      let! hd := gets hass_data in
      let! dom := getitem hd DOMAIN in
      set_hass_data
        (<[DOMAIN := <[entry_id entry :=
                         {| DATA_ACCOUNT := account; DATA_DEVICES := devs |}]> dom]> hd) ;;;
      hass_forward entry PLATFORMS ;;;
      ret true
  end.

Definition async_unload_entry (entry : ConfigEntry) : M Hass bool :=
  ret true.

(** ** [config_flow.py] *)

(** The fields [__init__] sets on the flow object. *)
Record Flow : Type := {
  _region : option string;
  _mobile : option string;
  _email : option string;
  _verify : option Callable
}.

Definition new_flow : Flow :=
  {| _region := None; _mobile := None; _email := None; _verify := None |}.

(** The calls into the account client a flow makes, as a log. *)
Inductive SdkCall : Type :=
  | CallLoginEmailOtp (email : string) (region : option string)
  | CallLoginMobileOtp (mobile : string)
  | CallVerify (args : list string).

Record Wizard : Type := {
  wiz_env : Env;
  self : Flow;
  (* oldest first *)
  sdk_calls : list SdkCall
}.

Definition wiz_call {A : Type} (f : Env -> Res A * Env) : M Wizard A :=
  fun w =>
    let '(r, e) := f (wiz_env w) in
    (r, {| wiz_env := e; self := self w; sdk_calls := sdk_calls w |}).

Definition record_call (c : SdkCall) : M Wizard unit :=
  modify (fun w => {| wiz_env := wiz_env w; self := self w;
                      sdk_calls := sdk_calls w ++ [c] |}).

Definition set_self (f : Flow -> Flow) : M Wizard unit :=
  modify (fun w => {| wiz_env := wiz_env w; self := f (self w);
                      sdk_calls := sdk_calls w |}).

Definition set_region (r : option string) (s : Flow) : Flow :=
  {| _region := r; _mobile := _mobile s; _email := _email s; _verify := _verify s |}.
Definition set_mobile (m : option string) (s : Flow) : Flow :=
  {| _region := _region s; _mobile := m; _email := _email s; _verify := _verify s |}.
Definition set_email (e : option string) (s : Flow) : Flow :=
  {| _region := _region s; _mobile := _mobile s; _email := e; _verify := _verify s |}.
Definition set_verify (v : option Callable) (s : Flow) : Flow :=
  {| _region := _region s; _mobile := _mobile s; _email := _email s; _verify := v |}.

(** The voluptuous schema of a form: its required keys, with their
    defaults and validators. *)
Inductive Validator : Type :=
  | VolStr
  | VolIn (choices : list (string * string)).

Record Field : Type := {
  field_key : string;
  field_default : option string;
  field_type : Validator
}.

(** What a step returns: [async_show_form], [async_create_entry] or
    [async_abort]. *)
Inductive FlowResult : Type :=
  | ShowForm (step_id : string) (data_schema : list Field)
             (errors : option (gmap string string))
  | CreateEntry (title : string) (data : gmap string Value)
  | Abort (reason : string).

(** [f"{x}"] for a field that is a string or [None]. *)
Definition fmt (o : option string) : string := default "None" o.

(** [(info or {}).get(key, default)] with the empty string as default. *)
Definition get_default (info : option (gmap string string)) (key : string) : string :=
  match info with
  | Some i => default EmptyString (i !! key)
  | None => EmptyString
  end.

(** Calling [self._verify] on its positional arguments, as the executor
    does. *)
Definition call_verify (args : list string) : M Wizard Value :=
  let! v := gets (fun w => _verify (self w)) in
  match v with
  | None => raise TypeError
  | Some f => record_call (CallVerify args) ;;; wiz_call (f args)
  end.

Definition email_form (info : option (gmap string string))
    (errors : gmap string string) : FlowResult :=
  ShowForm "email"
    [{| field_key := CONF_EMAIL;
        field_default := Some (get_default info CONF_EMAIL);
        field_type := VolStr |}]
    (Some errors).

Definition email_otp_form (errors : gmap string string) : FlowResult :=
  ShowForm "email_otp"
    [{| field_key := CONF_PASSWORD; field_default := None; field_type := VolStr |};
     {| field_key := CONF_OTP; field_default := None; field_type := VolStr |}]
    (Some errors).

Definition mobile_form (info : option (gmap string string))
    (errors : gmap string string) : FlowResult :=
  ShowForm "mobile"
    [{| field_key := CONF_MOBILE;
        field_default := Some (get_default info CONF_MOBILE);
        field_type := VolStr |}]
    (Some errors).

Definition mobile_otp_form (errors : gmap string string) : FlowResult :=
  ShowForm "mobile_otp"
    [{| field_key := CONF_OTP; field_default := None; field_type := VolStr |}]
    (Some errors).

Definition async_step_email_otp (info : option (gmap string string))
    : M Wizard FlowResult :=
  match info with
  | Some i =>
      let! otp := getitem i CONF_OTP in
      let! password := getitem i CONF_PASSWORD in
      let! outcome := try (call_verify [otp; password]) in
      match outcome with
      | inl DysonLoginFailure =>
          ret (email_otp_form {["base" := "invalid_auth"]})
      | inl err => raise err
      | inr auth_info =>
          let! s := gets self in
          ret (CreateEntry
                 (fmt (_email s) +:+ " (" +:+ fmt (_region s) +:+ ")")
                 (<[CONF_AUTH := auth_info]>
                    (<[CONF_REGION := of_opt (_region s)]> ∅)))
      end
  | None => ret (email_otp_form ∅)
  end.

Definition async_step_mobile_otp (info : option (gmap string string))
    : M Wizard FlowResult :=
  match info with
  | Some i =>
      let! otp := getitem i CONF_OTP in
      let! outcome := try (call_verify [otp]) in
      match outcome with
      | inl DysonLoginFailure =>
          ret (mobile_otp_form {["base" := "invalid_otp"]})
      | inl err => raise err
      | inr auth_info =>
          let! s := gets self in
          ret (CreateEntry
                 (fmt (_mobile s) +:+ " (" +:+ fmt (_region s) +:+ ")")
                 (<[CONF_AUTH := auth_info]>
                    (<[CONF_REGION := of_opt (_region s)]> ∅)))
      end
  | None => ret (mobile_otp_form ∅)
  end.

(** The loop over [self._async_current_entries()]: is there an entry whose
    [unique_id] equals the one about to be set? *)
Definition already_configured (uid : string) (entries : list ConfigEntry) : bool :=
  existsb (fun entry => bool_decide (unique_id entry = Some uid)) entries.

Definition async_step_email (info : option (gmap string string))
    : M Wizard FlowResult :=
  match info with
  | Some i =>
      let! email := getitem i CONF_EMAIL in
      let uid := "global_" +:+ email in
      let! entries := gets (fun w => _async_current_entries (wiz_env w)) in
      if already_configured uid entries then
        ret (Abort "already_configured")
      else
        wiz_call (async_set_unique_id uid) ;;;
        wiz_call _abort_if_unique_id_configured ;;;
        let account := DysonAccount VNone in
        let! region := gets (fun w => _region (self w)) in
        let! outcome :=
          try (record_call (CallLoginEmailOtp email region) ;;;
               wiz_call (login_email_otp account email region)) in
        match outcome with
        | inl DysonNetworkError =>
            ret (email_form info {["base" := "cannot_connect"]})
        | inl DysonInvalidAccountStatus =>
            ret (email_form info {["base" := "email_not_registered"]})
        | inl err => raise err
        | inr verify =>
            set_self (set_verify (Some verify)) ;;;
            set_self (set_email (Some email)) ;;;
            async_step_email_otp None
        end
  | None => ret (email_form info ∅)
  end.

(** [mobile if mobile.startswith("+") else f"+86{mobile}"] *)
Definition normalize_mobile (mobile : string) : string :=
  if String.prefix "+" mobile then mobile else "+86" +:+ mobile.

Definition async_step_mobile (info : option (gmap string string))
    : M Wizard FlowResult :=
  match info with
  | Some i =>
      let account := DysonAccountCN VNone in
      let! mobile := getitem i CONF_MOBILE in
      let mobile := normalize_mobile mobile in
      let! outcome :=
        try (record_call (CallLoginMobileOtp mobile) ;;;
             wiz_call (login_mobile_otp account mobile)) in
      match outcome with
      | inl DysonOTPTooFrequently =>
          ret (mobile_form info {["base" := "otp_too_frequent"]})
      | inl err => raise err
      | inr verify =>
          set_self (set_verify (Some verify)) ;;;
          set_self (set_mobile (Some mobile)) ;;;
          async_step_mobile_otp None
      end
  | None => ret (mobile_form info ∅)
  end.

Definition region_names : list (string * string) :=
  map (fun '(code, name) => (code, name +:+ " (" +:+ code +:+ ")")) REGIONS.

Definition async_step_user (user_input : option (gmap string string))
    : M Wizard FlowResult :=
  match user_input with
  | Some i =>
      let! region := getitem i CONF_REGION in
      set_self (set_region (Some region)) ;;;
      if bool_decide (region = "CN") then async_step_mobile None
      else async_step_email None
  | None =>
      ret (ShowForm "user"
             [{| field_key := CONF_REGION; field_default := None;
                 field_type := VolIn region_names |}]
             None)
  end.

(** ** The host's flow manager

    How Home Assistant drives a flow (spec 4.2: the states lead to a
    terminal [create_entry] or [abort]): it calls the method of the step the
    last form named, turns an [AbortFlow] into an abort result, and is done
    with the flow at the first entry or abort.  After any other exception
    the flow stays on the step it was on. *)

Definition step_method (step_id : string)
    : option (option (gmap string string) -> M Wizard FlowResult) :=
  if bool_decide (step_id = "user") then Some async_step_user
  else if bool_decide (step_id = "email") then Some async_step_email
  else if bool_decide (step_id = "email_otp") then Some async_step_email_otp
  else if bool_decide (step_id = "mobile") then Some async_step_mobile
  else if bool_decide (step_id = "mobile_otp") then Some async_step_mobile_otp
  else None.

Definition handle_step (step_id : string) (user_input : option (gmap string string))
    : M Wizard FlowResult :=
  match step_method step_id with
  | None => raise (OtherException "UnknownStep")
  | Some method =>
      let! outcome := try (method user_input) in
      match outcome with
      | inl (AbortFlow reason) => ret (Abort reason)
      | inl err => raise err
      | inr result => ret result
      end
  end.

(** A session: the submissions of the user, in order, fed to the flow that
    is on step [cur].  The outcome of every call is kept. *)
Fixpoint run_flow (cur : string) (inputs : list (option (gmap string string)))
    (w : Wizard) : list (Res FlowResult) * Wizard :=
  match inputs with
  | [] => ([], w)
  | i :: rest =>
      match handle_step cur i w with
      | (inr (ShowForm next schema errors), w') =>
          let '(rs, w'') := run_flow next rest w' in
          (inr (ShowForm next schema errors) :: rs, w'')
      | (inr result, w') => ([inr result], w')
      | (inl err, w') =>
          let '(rs, w'') := run_flow cur rest w' in
          (inl err :: rs, w'')
      end
  end.

Definition is_entry (r : Res FlowResult) : bool :=
  match r with inr (CreateEntry _ _) => true | _ => false end.

(** The session a user starts: the host opens the [user] step without
    input, then passes on what the user submits. *)
Definition session (e : Env) (submissions : list (gmap string string))
    : list (Res FlowResult) * Wizard :=
  run_flow "user" (None :: map Some submissions)
    {| wiz_env := e; self := new_flow; sdk_calls := [] |}.

(** ** Notions the statements use *)

(** The world after a call into the account client: the collaborators'
    state is the one the call left, the call is logged, and [self] is as
    given. *)
Definition after_call (w : Wizard) (c : SdkCall) (e : Env) (s : Flow) : Wizard :=
  {| wiz_env := e; self := s; sdk_calls := sdk_calls w ++ [c] |}.

(** The uniqueness checks of the email step let the submission through:
    no current entry has the unique id, setting it and the host's own check
    raise nothing, and [e2] is the state in which the login call is then
    made. *)
Definition email_gate_open (w : Wizard) (email : string) (e2 : Env) : Prop :=
  already_configured ("global_" +:+ email) (_async_current_entries (wiz_env w)) = false /\
  exists e1,
    async_set_unique_id ("global_" +:+ email) (wiz_env w) = (inr tt, e1) /\
    _abort_if_unique_id_configured e1 = (inr tt, e2).

End Integration.

(** ** A sample environment

    A cloud service and a host small enough to run: the service answers the
    listing and the login calls as the record says and accepts one code; the
    host keeps the entries and the unique id of the flow. *)
Module Sample.

Record env : Type := {
  entries : list (@ConfigEntry string);
  context_unique_id : option string;
  listing : Res (list string);
  login_failure : option exn;
  sent_code : string
}.

Definition with_unique_id (uid : string) (e : env) : env :=
  {| entries := entries e; context_unique_id := Some uid;
     listing := listing e; login_failure := login_failure e;
     sent_code := sent_code e |}.

Definition check_code (code : string) (e : env) : Res (@Value string) * env :=
  if bool_decide (code = sent_code e) then (inr (VAuth "token"), e)
  else (inl DysonLoginFailure, e).

Definition verify_email : @Callable string env :=
  fun args e =>
    match args with
    | [code; password] => check_code code e
    | _ => (inl TypeError, e)
    end.

Definition verify_mobile : @Callable string env :=
  fun args e =>
    match args with
    | [code] => check_code code e
    | _ => (inl TypeError, e)
    end.

Definition login (verify : @Callable string env) (e : env)
    : Res (@Callable string env) * env :=
  match login_failure e with
  | Some err => (inl err, e)
  | None => (inr verify, e)
  end.

Definition abort_if_configured (e : env) : Res unit * env :=
  if existsb (fun entry => bool_decide (unique_id entry = context_unique_id e))
             (entries e)
  then (inl (AbortFlow "already_configured"), e)
  else (inr tt, e).

#[export] Instance external : @External string string env := {|
  REGIONS := [("GB", "United Kingdom"); ("CN", "China")];
  devices := fun _ e => (listing e, e);
  login_email_otp := fun _ _ _ e => login verify_email e;
  login_mobile_otp := fun _ _ e => login verify_mobile e;
  _async_current_entries := entries;
  async_set_unique_id := fun uid e => (inr tt, with_unique_id uid e);
  _abort_if_unique_id_configured := abort_if_configured;
  async_forward_entry_setups := fun _ _ e => (inr tt, e);
  forward_writes := fun _ _ _ d => d
|}.

Definition auth : @Value string := VAuth "token".

(** An entry the email branch created earlier. *)
Definition email_entry : @ConfigEntry string :=
  {| entry_id := "e1"; unique_id := Some "global_a@b.c";
     title := "a@b.c (GB)";
     data := <[CONF_AUTH := auth]> (<[CONF_REGION := VStr "GB"]> ∅) |}.

(** An entry the mobile branch created earlier: no unique id was set. *)
Definition mobile_entry : @ConfigEntry string :=
  {| entry_id := "m1"; unique_id := None;
     title := "+8613800000000 (CN)";
     data := <[CONF_AUTH := auth]> (<[CONF_REGION := VStr "CN"]> ∅) |}.

Definition cloud (es : list (@ConfigEntry string)) (ls : Res (list string))
    (failure : option exn) : env :=
  {| entries := es; context_unique_id := None; listing := ls;
     login_failure := failure; sent_code := "123456" |}.

(** The service reachable, with two devices on the account, and the
    service unreachable. *)
Definition up : env := cloud [] (inr ["fan"; "purifier"]) None.
Definition down : env := cloud [] (inl DysonNetworkError) None.

Definition hass (e : env) : @Hass string string env :=
  {| hass_env := e; hass_data := {[DOMAIN := ∅]}; hass_tasks := []; hass_log := [] |}.

Definition wizard (e : env) (s : @Flow string env) : @Wizard string env :=
  {| wiz_env := e; self := s; sdk_calls := [] |}.

(** Flows that have been through the [user] step, and one that has been
    through the email step as well. *)
Definition gb_flow : @Flow string env := set_region (Some "GB") new_flow.
Definition cn_flow : @Flow string env := set_region (Some "CN") new_flow.
Definition gb_flow_otp : @Flow string env :=
  set_email (Some "a@b.c") (set_verify (Some verify_email) gb_flow).

(** The service refusing the login call with [err]. *)
Definition refusing (err : exn) : env := cloud [] (inr []) (Some err).

End Sample.

(** ** Further notions the statements use *)

Section Outcomes.

Context {Auth Device Env : Type} {ext : @External Auth Device Env}.

(** The account client [async_setup_entry] builds for a stored region and
    auth payload. *)
Definition account_for (region auth : @Value Auth) : @Account Auth :=
  if value_is_str region "CN" then DysonAccountCN auth else DysonAccount auth.

(** The state once the devices are listed and a discovery task is created
    for each: nothing is stored yet. *)
Definition after_listing (h : @Hass Auth Device Env) (devs : list Device)
    (e : Env) : @Hass Auth Device Env :=
  {| hass_env := e; hass_data := hass_data h;
     hass_tasks := hass_tasks h ++ map discovery_task devs;
     hass_log := hass_log h |}.

(** The state once the account and the devices are stored under the entry's
    id in the registry [dom] of the domain. *)
Definition after_store (entry : @ConfigEntry Auth) (h : @Hass Auth Device Env)
    (account : @Account Auth) (devs : list Device)
    (dom : gmap string (@RuntimeData Auth Device)) (e : Env)
    : @Hass Auth Device Env :=
  {| hass_env := e;
     hass_data :=
       <[DOMAIN := <[entry_id entry :=
                       {| DATA_ACCOUNT := account; DATA_DEVICES := devs |}]> dom]>
         (hass_data h);
     hass_tasks := hass_tasks h ++ map discovery_task devs;
     hass_log := hass_log h |}.

(** The state the forwarding call leaves, run on [h1] and ending with the
    collaborators in [e]. *)
Definition after_forward (entry : @ConfigEntry Auth) (h1 : @Hass Auth Device Env)
    (e : Env) : @Hass Auth Device Env :=
  {| hass_env := e;
     hass_data :=
       keep_registry (hass_data h1)
         (forward_writes entry PLATFORMS (hass_env h1) (hass_data h1));
     hass_tasks := hass_tasks h1; hass_log := hass_log h1 |}.

(** What [hass.data[DOMAIN]] holds under an id, if anything. *)
Definition registered (h : @Hass Auth Device Env) (id : string)
    : option (@RuntimeData Auth Device) :=
  hass_data h !! DOMAIN ≫= (.!! id).

(** The data of the entry a finished flow creates for a region and an auth
    payload. *)
Definition entry_data (region : option string) (auth_info : @Value Auth)
    : gmap string (@Value Auth) :=
  <[CONF_AUTH := auth_info]> (<[CONF_REGION := of_opt region]> ∅).

End Outcomes.

(** ** A scripted environment

    Collaborators without state of their own: every operation answers as
    the record says.  The verification callable accepts one code and raises
    [rejection] for any other.  Setting the platforms up leaves an (empty)
    slot of the camera component in [hass.data]. *)
Module Scripted.

Record env : Type := {
  current_entries : list (@ConfigEntry string);
  listing : Res (list string);
  login_outcome : option exn;
  accepted_code : string;
  rejection : exn;
  unique_id_outcome : option exn;
  configured_outcome : option exn;
  forward_outcome : option exn
}.

Definition outcome (o : option exn) (e : env) : Res unit * env :=
  match o with
  | Some err => (inl err, e)
  | None => (inr tt, e)
  end.

Definition verify : @Callable string env :=
  fun args e =>
    match args with
    | code :: _ =>
        if bool_decide (code = accepted_code e) then (inr (VAuth "token"), e)
        else (inl (rejection e), e)
    | [] => (inl TypeError, e)
    end.

Definition login (e : env) : Res (@Callable string env) * env :=
  match login_outcome e with
  | Some err => (inl err, e)
  | None => (inr verify, e)
  end.

#[export] Instance external : @External string string env := {|
  REGIONS := [("GB", "United Kingdom"); ("CN", "China")];
  devices := fun _ e => (listing e, e);
  login_email_otp := fun _ _ _ e => login e;
  login_mobile_otp := fun _ _ e => login e;
  _async_current_entries := current_entries;
  async_set_unique_id := fun _ e => outcome (unique_id_outcome e) e;
  _abort_if_unique_id_configured := fun e => outcome (configured_outcome e) e;
  async_forward_entry_setups := fun _ _ e => outcome (forward_outcome e) e;
  forward_writes := fun _ _ _ d => <["camera" := ∅]> d
|}.

(** Everything works: two devices on the account, the login call returns
    the callable, the host raises nothing. *)
Definition fine : env :=
  {| current_entries := []; listing := inr ["fan"; "purifier"];
     login_outcome := None; accepted_code := "123456";
     rejection := DysonLoginFailure; unique_id_outcome := None;
     configured_outcome := None; forward_outcome := None |}.

Definition listing_fails (err : exn) : env :=
  {| current_entries := []; listing := inl err;
     login_outcome := None; accepted_code := "123456";
     rejection := DysonLoginFailure; unique_id_outcome := None;
     configured_outcome := None; forward_outcome := None |}.

Definition forward_fails (err : exn) : env :=
  {| current_entries := []; listing := inr ["fan"; "purifier"];
     login_outcome := None; accepted_code := "123456";
     rejection := DysonLoginFailure; unique_id_outcome := None;
     configured_outcome := None; forward_outcome := Some err |}.

Definition login_fails (err : exn) : env :=
  {| current_entries := []; listing := inr ["fan"; "purifier"];
     login_outcome := Some err; accepted_code := "123456";
     rejection := DysonLoginFailure; unique_id_outcome := None;
     configured_outcome := None; forward_outcome := None |}.

Definition rejecting_with (err : exn) : env :=
  {| current_entries := []; listing := inr ["fan"; "purifier"];
     login_outcome := None; accepted_code := "123456";
     rejection := err; unique_id_outcome := None;
     configured_outcome := None; forward_outcome := None |}.

Definition host_aborts (on_set on_check : option exn) : env :=
  {| current_entries := []; listing := inr ["fan"; "purifier"];
     login_outcome := None; accepted_code := "123456";
     rejection := DysonLoginFailure; unique_id_outcome := on_set;
     configured_outcome := on_check; forward_outcome := None |}.

Definition hass (e : env) (d : gmap string (gmap string (@RuntimeData string string)))
    : @Hass string string env :=
  {| hass_env := e; hass_data := d; hass_tasks := []; hass_log := [] |}.

Definition wizard (e : env) (s : @Flow string env) : @Wizard string env :=
  {| wiz_env := e; self := s; sdk_calls := [] |}.

(** An entry as the email branch creates it for region GB, and one as the
    mobile branch creates it. *)
Definition gb_entry : @ConfigEntry string :=
  {| entry_id := "e1"; unique_id := Some "global_a@b.c"; title := "a@b.c (GB)";
     data := entry_data (Some "GB") (VAuth "token") |}.

Definition cn_entry : @ConfigEntry string :=
  {| entry_id := "m1"; unique_id := None; title := "+8613800000000 (CN)";
     data := entry_data (Some "CN") (VAuth "token") |}.

(** Flows that are past the [user] step, and past the identifier step. *)
Definition gb_flow : @Flow string env := set_region (Some "GB") new_flow.
Definition cn_flow : @Flow string env := set_region (Some "CN") new_flow.
Definition gb_flow_otp : @Flow string env :=
  set_email (Some "a@b.c") (set_verify (Some verify) gb_flow).
Definition cn_flow_otp : @Flow string env :=
  set_mobile (Some "+8613800000000") (set_verify (Some verify) cn_flow).

(** Submissions. *)
Definition region_gb : gmap string string := {["region" := "GB"]}.
Definition region_cn : gmap string string := {["region" := "CN"]}.
Definition email_input : gmap string string := {["email" := "a@b.c"]}.
Definition mobile_input : gmap string string := {["mobile" := "13800000000"]}.
Definition right_code : gmap string string := {["otp" := "123456"; "password" := "pw"]}.
Definition wrong_code : gmap string string := {["otp" := "000000"; "password" := "pw"]}.

(** An entry without data, and a registry that already holds the devices
    of another entry. *)
Definition bare_entry : @ConfigEntry string :=
  {| entry_id := "x1"; unique_id := None; title := "bare"; data := ∅ |}.

Definition other_stored : @RuntimeData string string :=
  {| DATA_ACCOUNT := DysonAccountCN (VAuth "other"); DATA_DEVICES := ["heater"] |}.

Definition busy : gmap string (gmap string (@RuntimeData string string)) :=
  {[DOMAIN := {["m1" := other_stored]}]}.

End Scripted.

(** * Properties *)

(** Unfolding of the monad's operations. *)
Ltac unfold_monad :=
  unfold getitem in *; unfold bind, try, gets, modify, ret, raise in *.

Section SetupProperties.

Context {Auth Device Env : Type} {ext : @External Auth Device Env}.

Implicit Types (entry : @ConfigEntry Auth) (h : @Hass Auth Device Env).

(** The account client the routine builds for a stored region and auth
    payload, as a value. *)
Lemma make_account_lookup entry h (region auth : @Value Auth) :
  data entry !! CONF_REGION = Some region ->
  data entry !! CONF_AUTH = Some auth ->
  make_account entry h =
    (inr (if value_is_str region "CN" then DysonAccountCN auth
          else DysonAccount auth), h).
Proof.
  intros Hr Ha. unfold make_account. unfold_monad.
  rewrite Hr. simpl. destruct (value_is_str region "CN"); rewrite Ha; reflexivity.
Qed.

Lemma make_account_inv entry h (account : @Account Auth) h' :
  make_account entry h = (inr account, h') ->
  h' = h /\
  exists region auth,
    data entry !! CONF_REGION = Some region /\
    data entry !! CONF_AUTH = Some auth /\
    account = (if value_is_str region "CN" then DysonAccountCN auth
               else DysonAccount auth).
Proof.
  unfold make_account. unfold_monad.
  destruct (data entry !! CONF_REGION) as [region|] eqn:Hr; [|discriminate].
  destruct (data entry !! CONF_AUTH) as [auth|] eqn:Ha.
  - intros Heq. destruct (value_is_str region "CN") eqn:Hcn;
      inversion Heq; subst; (split; [reflexivity|]);
      exists region, auth; rewrite Hcn; auto.
  - destruct (value_is_str region "CN"); discriminate.
Qed.

(** The loop over the devices appends one task per device, in order, and
    touches nothing else. *)
Lemma for_each_create_task (devs : list Device) h :
  for_each devs (fun device => async_create_task (discovery_task device)) h =
    (inr tt,
     {| hass_env := hass_env h; hass_data := hass_data h;
        hass_tasks := hass_tasks h ++ map discovery_task devs;
        hass_log := hass_log h |}).
Proof.
  revert h. induction devs as [|d devs IH]; intros h; simpl.
  - unfold ret. rewrite app_nil_r. destruct h; reflexivity.
  - unfold bind at 1. unfold async_create_task at 1, modify at 1.
    rewrite IH. simpl. rewrite <- app_assoc. reflexivity.
Qed.

(** What a host call leaves of the registry, and of the other keys. *)
Lemma keep_registry_lookup (before after : gmap string (gmap string (@RuntimeData Auth Device))) :
  keep_registry before after !! DOMAIN = before !! DOMAIN.
Proof.
  unfold keep_registry. destruct (before !! DOMAIN) as [registry|].
  - apply lookup_insert_eq.
  - apply lookup_delete_eq.
Qed.

Lemma keep_registry_lookup_ne
    (before after : gmap string (gmap string (@RuntimeData Auth Device))) (key : string) :
  key <> DOMAIN ->
  keep_registry before after !! key = after !! key.
Proof.
  intros Hne. unfold keep_registry. destruct (before !! DOMAIN) as [registry|].
  - apply lookup_insert_ne. congruence.
  - apply lookup_delete_ne. congruence.
Qed.

(** The test [entry.data[CONF_REGION] == "CN"] holds of the string ["CN"]
    and of no other value. *)
Lemma value_is_str_CN (region : @Value Auth) :
  value_is_str region "CN" = true <-> region = VStr "CN".
Proof.
  destruct region as [|s|a]; simpl.
  - split; discriminate.
  - rewrite bool_decide_eq_true. split; congruence.
  - split; discriminate.
Qed.

(** C3: when the listing call raises [DysonNetworkError], the setup raises
    [ConfigEntryNotReady] (the host's signal to retry later); no discovery
    task was created and [hass.data] is as it was: only the error was
    logged. *)
Theorem setup_network_error_not_ready entry h (region auth : @Value Auth) (e' : Env) :
  data entry !! CONF_REGION = Some region ->
  data entry !! CONF_AUTH = Some auth ->
  devices (if value_is_str region "CN" then DysonAccountCN auth
           else DysonAccount auth) (hass_env h) = (inl DysonNetworkError, e') ->
  async_setup_entry entry h =
    (inl (ConfigEntryNotReady DysonNetworkError),
     {| hass_env := e'; hass_data := hass_data h; hass_tasks := hass_tasks h;
        hass_log := hass_log h ++ ["Cannot connect to Dyson cloud service"] |}).
Proof.
  intros Hr Ha Hd. unfold async_setup_entry.
  unfold bind at 1. rewrite (make_account_lookup _ _ _ _ Hr Ha).
  unfold bind at 1, try, hass_call. rewrite Hd. simpl.
  reflexivity.
Qed.

(** C5: whatever list the listing call returns, the setup creates exactly
    one discovery task per device of the list, in the list's order, each
    with that device's descriptor as its data; this holds whether or not
    the rest of the setup succeeds. *)
Theorem setup_one_discovery_per_device entry h (region auth : @Value Auth)
    (devs : list Device) (e' : Env) :
  data entry !! CONF_REGION = Some region ->
  data entry !! CONF_AUTH = Some auth ->
  devices (if value_is_str region "CN" then DysonAccountCN auth
           else DysonAccount auth) (hass_env h) = (inr devs, e') ->
  exists created,
    hass_tasks (snd (async_setup_entry entry h)) = hass_tasks h ++ created /\
    created =
      map (fun device => {| init_domain := DYSON_LOCAL_DOMAIN;
                            init_source := SOURCE_DISCOVERY;
                            init_data := device |}) devs /\
    length created = length devs /\
    (forall i device, devs !! i = Some device ->
       init_data <$> created !! i = Some device).
Proof.
  intros Hr Ha Hd.
  exists (map discovery_task devs). split; [|split; [reflexivity|split]].
  - unfold async_setup_entry.
    unfold bind at 1. rewrite (make_account_lookup _ _ _ _ Hr Ha).
    unfold bind at 1, try, hass_call. rewrite Hd. simpl.
    unfold bind at 1. rewrite for_each_create_task.
    unfold_monad. simpl.
    destruct (hass_data h !! DOMAIN) as [dom|]; simpl; [|reflexivity].
    unfold set_hass_data, modify, hass_forward; simpl.
    destruct (async_forward_entry_setups entry PLATFORMS e') as [[err|[]] e''];
      reflexivity.
  - apply length_map.
  - intros i device Hi. rewrite list_lookup_fmap, Hi. reflexivity.
Qed.

(** C8: a setup that returns [True] built the account client for the
    stored region, [DysonAccountCN] when the region is the string ["CN"] and
    [DysonAccount] for every other value, from the stored auth payload; it
    listed the devices with that client, and it left that client and the
    returned list in [hass.data[DOMAIN]] under the entry's id, beside what
    the registry held before.  The store comes after the listing and before
    the platforms are set up: the forwarding call ran on the state that has
    it, and [h'] is what that call left. *)
Theorem setup_success_stores_account entry h h' :
  async_setup_entry entry h = (inr true, h') ->
  exists (region auth : @Value Auth) (account : @Account Auth)
         (devs : list Device) (e' e'' : Env)
         (dom : gmap string (@RuntimeData Auth Device)),
    data entry !! CONF_REGION = Some region /\
    data entry !! CONF_AUTH = Some auth /\
    (region = VStr "CN" -> account = DysonAccountCN auth) /\
    (region <> VStr "CN" -> account = DysonAccount auth) /\
    devices account (hass_env h) = (inr devs, e') /\
    hass_data h !! DOMAIN = Some dom /\
    hass_data h' !! DOMAIN =
      Some (<[entry_id entry :=
                {| DATA_ACCOUNT := account; DATA_DEVICES := devs |}]> dom) /\
    hass_data h' !! DOMAIN ≫= (.!! entry_id entry) =
      Some {| DATA_ACCOUNT := account; DATA_DEVICES := devs |} /\
    async_forward_entry_setups entry PLATFORMS e' = (inr tt, e'') /\
    h' = after_forward entry (after_store entry h account devs dom e') e''.
Proof.
  unfold async_setup_entry. unfold bind at 1.
  destruct (make_account entry h) as [[err|account] h0] eqn:Hacc; [discriminate|].
  apply make_account_inv in Hacc as (-> & region & auth & Hr & Ha & Hacc).
  unfold bind at 1, try, hass_call.
  destruct (devices account (hass_env h)) as [[err|devs] e'] eqn:Hd; simpl.
  { destruct err; unfold_monad; simpl; discriminate. }
  unfold bind at 1. rewrite for_each_create_task.
  unfold_monad. simpl.
  destruct (hass_data h !! DOMAIN) as [dom|] eqn:Hdom; simpl; [|discriminate].
  unfold set_hass_data, modify, hass_forward; simpl.
  destruct (async_forward_entry_setups entry PLATFORMS e') as [[err|[]] e'']
    eqn:Hf; [discriminate|].
  intros Heq. inversion Heq; subst h'; clear Heq. simpl.
  exists region, auth, account, devs, e', e'', dom.
  split; [exact Hr|]. split; [exact Ha|].
  split.
  { intros Hcn. apply value_is_str_CN in Hcn. rewrite Hcn in Hacc. exact Hacc. }
  split.
  { intros Hne. destruct (value_is_str region "CN") eqn:Hcn; [|exact Hacc].
    apply value_is_str_CN in Hcn. contradiction. }
  split; [exact Hd|]. split; [reflexivity|].
  rewrite keep_registry_lookup, lookup_insert_eq.
  split; [reflexivity|]. split; [simpl; apply lookup_insert_eq|].
  split; [exact Hf|reflexivity].
Qed.

(** The converse of C8: when the entry has both keys, the listing and the
    forwarding succeed and [async_setup] has run, the setup returns
    [True]. *)
Lemma setup_succeeds entry h (region auth : @Value Auth) (devs : list Device)
    (e' e'' : Env) (dom : gmap string (@RuntimeData Auth Device)) :
  data entry !! CONF_REGION = Some region ->
  data entry !! CONF_AUTH = Some auth ->
  devices (if value_is_str region "CN" then DysonAccountCN auth
           else DysonAccount auth) (hass_env h) = (inr devs, e') ->
  hass_data h !! DOMAIN = Some dom ->
  async_forward_entry_setups entry PLATFORMS e' = (inr tt, e'') ->
  fst (async_setup_entry entry h) = inr true.
Proof.
  intros Hr Ha Hd Hdom Hf. unfold async_setup_entry.
  unfold bind at 1. rewrite (make_account_lookup _ _ _ _ Hr Ha).
  unfold bind at 1, try, hass_call. rewrite Hd. simpl.
  unfold bind at 1. rewrite for_each_create_task.
  unfold_monad. simpl. rewrite Hdom. simpl.
  unfold set_hass_data, modify, hass_forward; simpl. rewrite Hf. reflexivity.
Qed.

(** C10: unloading returns [True] and changes nothing; what the registry
    holds under the entry's id is still there. *)
Theorem unload_entry_keeps_state entry h :
  async_unload_entry entry h = (inr true, h) /\
  hass_data (snd (async_unload_entry entry h)) !! DOMAIN ≫= (.!! entry_id entry)
    = hass_data h !! DOMAIN ≫= (.!! entry_id entry).
Proof. split; reflexivity. Qed.

End SetupProperties.

Section FlowProperties.

Context {Auth Device Env : Type} {ext : @External Auth Device Env}.

Implicit Types (w : @Wizard Auth Env) (i : gmap string string)
  (verify : @Callable Auth Env).

Lemma call_verify_run w verify (args : list string) (r : Res (@Value Auth)) (e' : Env) :
  _verify (self w) = Some verify ->
  verify args (wiz_env w) = (r, e') ->
  call_verify args w = (r, after_call w (CallVerify args) e' (self w)).
Proof.
  intros Hv Hr. unfold call_verify. unfold_monad. rewrite Hv.
  unfold record_call, wiz_call, modify. simpl. rewrite Hr. reflexivity.
Qed.

(** C7: on the email OTP step, when the stored verification callable
    returns an auth payload for the submitted code and password, the step
    returns a created entry whose title is the stored email, a space, and
    the stored region in parentheses, and whose data has exactly the two
    keys [region] and [auth], with the stored region and the returned
    payload. *)
Theorem email_otp_success_creates_entry w i (otp password email region : string)
    verify (auth_info : @Value Auth) (e' : Env) :
  i !! CONF_OTP = Some otp ->
  i !! CONF_PASSWORD = Some password ->
  _verify (self w) = Some verify ->
  _email (self w) = Some email ->
  _region (self w) = Some region ->
  verify [otp; password] (wiz_env w) = (inr auth_info, e') ->
  async_step_email_otp (Some i) w =
    (inr (CreateEntry (email +:+ " (" +:+ region +:+ ")")
            {["region" := VStr region; "auth" := auth_info]}),
     after_call w (CallVerify [otp; password]) e' (self w)).
Proof.
  intros Ho Hp Hv He Hr Hcall. unfold async_step_email_otp.
  unfold getitem. rewrite Ho, Hp.
  unfold bind at 1, ret at 1. unfold bind at 1, ret at 1.
  unfold bind at 1, try at 1.
  rewrite (call_verify_run _ _ _ _ _ Hv Hcall).
  unfold_monad. simpl. rewrite He, Hr. simpl.
  reflexivity.
Qed.

Lemma email_step_login w i (email : string) (e2 e3 : Env) (r : Res (@Callable Auth Env)) :
  i !! CONF_EMAIL = Some email ->
  email_gate_open w email e2 ->
  login_email_otp (DysonAccount VNone) email (_region (self w)) e2 = (r, e3) ->
  async_step_email (Some i) w =
    let w3 := after_call w (CallLoginEmailOtp email (_region (self w))) e3 (self w) in
    match r with
    | inl DysonNetworkError =>
        (inr (email_form (Some i) {["base" := "cannot_connect"]}), w3)
    | inl DysonInvalidAccountStatus =>
        (inr (email_form (Some i) {["base" := "email_not_registered"]}), w3)
    | inl err => (inl err, w3)
    | inr verify =>
        (inr (email_otp_form ∅),
         after_call w (CallLoginEmailOtp email (_region (self w))) e3
           (set_email (Some email) (set_verify (Some verify) (self w))))
    end.
Proof.
  intros Hi (Hfree & e1 & Hset & Habort) Hlogin. unfold async_step_email.
  unfold getitem. rewrite Hi.
  unfold bind at 1, ret at 1. unfold bind at 1, gets at 1. rewrite Hfree.
  unfold bind at 1, wiz_call at 1. rewrite Hset.
  unfold bind at 1, wiz_call at 1. simpl. rewrite Habort.
  unfold bind at 1, gets at 1. simpl.
  unfold bind at 1, try at 1, bind at 1, record_call, modify, wiz_call. simpl.
  rewrite Hlogin.
  destruct r as [err|verify]; [destruct err|]; reflexivity.
Qed.

Lemma mobile_step_login w i (mobile : string) (e' : Env) (r : Res (@Callable Auth Env)) :
  i !! CONF_MOBILE = Some mobile ->
  login_mobile_otp (DysonAccountCN VNone) (normalize_mobile mobile) (wiz_env w) = (r, e') ->
  async_step_mobile (Some i) w =
    let w' := after_call w (CallLoginMobileOtp (normalize_mobile mobile)) e' (self w) in
    match r with
    | inl DysonOTPTooFrequently =>
        (inr (mobile_form (Some i) {["base" := "otp_too_frequent"]}), w')
    | inl err => (inl err, w')
    | inr verify =>
        (inr (mobile_otp_form ∅),
         after_call w (CallLoginMobileOtp (normalize_mobile mobile)) e'
           (set_mobile (Some (normalize_mobile mobile))
              (set_verify (Some verify) (self w))))
    end.
Proof.
  intros Hi Hlogin. unfold async_step_mobile.
  unfold getitem. rewrite Hi.
  unfold bind at 1, ret at 1.
  unfold bind at 1, try at 1, bind at 1, record_call, modify, wiz_call. simpl.
  rewrite Hlogin.
  destruct r as [err|verify]; [destruct err|]; reflexivity.
Qed.

(** X21: the handlers the identifier steps have.  On the email step a
    [DysonNetworkError] of the login call becomes the form error
    [cannot_connect] and a [DysonInvalidAccountStatus] becomes
    [email_not_registered]; on the mobile step a [DysonOTPTooFrequently]
    becomes [otp_too_frequent].  In each case the step returns its own form
    again, with that error and the submitted identifier as default, the
    session is as it was, and no exception leaves the step. *)
Theorem login_errors_redisplay_step w i (ident : string) (e2 e3 : Env) :
  (i !! CONF_EMAIL = Some ident ->
   email_gate_open w ident e2 ->
   forall err code,
     login_email_otp (DysonAccount VNone) ident (_region (self w)) e2 = (inl err, e3) ->
     (err, code) ∈ [(DysonNetworkError, "cannot_connect");
                    (DysonInvalidAccountStatus, "email_not_registered")] ->
     async_step_email (Some i) w =
       (inr (ShowForm "email"
               [{| field_key := "email"; field_default := Some ident;
                   field_type := VolStr |}]
               (Some {["base" := code]})),
        after_call w (CallLoginEmailOtp ident (_region (self w))) e3 (self w))) /\
  (i !! CONF_MOBILE = Some ident ->
   login_mobile_otp (DysonAccountCN VNone) (normalize_mobile ident) (wiz_env w)
     = (inl DysonOTPTooFrequently, e3) ->
   async_step_mobile (Some i) w =
     (inr (ShowForm "mobile"
             [{| field_key := "mobile"; field_default := Some ident;
                 field_type := VolStr |}]
             (Some {["base" := "otp_too_frequent"]})),
      after_call w (CallLoginMobileOtp (normalize_mobile ident)) e3 (self w))).
Proof.
  split.
  - intros Hi Hgate err code Hlogin Hin.
    rewrite (email_step_login _ _ _ _ _ _ Hi Hgate Hlogin).
    unfold email_form, get_default, CONF_EMAIL in *. rewrite Hi. simpl.
    apply elem_of_cons in Hin as [Heq|Hin]; [inversion Heq; subst; reflexivity|].
    apply elem_of_cons in Hin as [Heq|Hin]; [inversion Heq; subst; reflexivity|].
    apply elem_of_nil in Hin as [].
  - intros Hi Hlogin.
    rewrite (mobile_step_login _ _ _ _ _ Hi Hlogin).
    unfold mobile_form, get_default, CONF_MOBILE in *. rewrite Hi. reflexivity.
Qed.

(** C4: an email submission for which one of the current entries has the
    unique id [global_<email>] is answered with an abort for the reason
    [already_configured]; the world is untouched, so [login_email_otp] was
    not called (no call was logged and the collaborators' state is the
    same). *)
Theorem email_duplicate_aborts w i (email : string) (entry : @ConfigEntry Auth) :
  i !! CONF_EMAIL = Some email ->
  entry ∈ _async_current_entries (wiz_env w) ->
  unique_id entry = Some ("global_" +:+ email) ->
  async_step_email (Some i) w = (inr (Abort "already_configured"), w) /\
  sdk_calls (snd (async_step_email (Some i) w)) = sdk_calls w.
Proof.
  intros Hi Hin Huid.
  assert (Hstep : async_step_email (Some i) w = (inr (Abort "already_configured"), w)).
  { unfold async_step_email. unfold getitem. rewrite Hi.
    unfold bind at 1, ret at 1. unfold bind at 1, gets at 1.
    assert (Hdup : already_configured ("global_" +:+ email)
                     (_async_current_entries (wiz_env w)) = true).
    { unfold already_configured. apply existsb_exists. exists entry. split.
      - apply list_elem_of_In, Hin.
      - apply bool_decide_eq_true, Huid. }
    rewrite Hdup. reflexivity. }
  rewrite Hstep. split; reflexivity.
Qed.

(** C6: a region submitted on the [user] step is stored, and the step
    answers with the form of the mobile step when the region is ["CN"] and
    with the form of the email step for any other region; no call into the
    account client is made on the way. *)
Theorem user_step_routes_by_region w i (region : string) :
  i !! CONF_REGION = Some region ->
  let w' := {| wiz_env := wiz_env w; self := set_region (Some region) (self w);
               sdk_calls := sdk_calls w |} in
  (region = "CN" -> async_step_user (Some i) w = async_step_mobile None w') /\
  (region <> "CN" -> async_step_user (Some i) w = async_step_email None w') /\
  exists step schema errors,
    async_step_user (Some i) w = (inr (ShowForm step schema errors), w') /\
    (step = "mobile" <-> region = "CN") /\
    (region <> "CN" -> step = "email").
Proof.
  intros Hi w'.
  assert (Hstep : async_step_user (Some i) w =
                  (if bool_decide (region = "CN") then async_step_mobile None
                   else async_step_email None) w').
  { unfold async_step_user, getitem. rewrite Hi. reflexivity. }
  rewrite Hstep. clear Hstep.
  destruct (bool_decide (region = "CN")) eqn:Hcn.
  - apply bool_decide_eq_true in Hcn.
    split; [reflexivity|]. split; [intros Hne; contradiction|].
    exists "mobile". eexists _, _. split; [reflexivity|].
    split; [tauto|intros Hne; contradiction].
  - apply bool_decide_eq_false in Hcn.
    split; [intros Heq; contradiction|]. split; [reflexivity|].
    exists "email". eexists _, _. split; [reflexivity|].
    split; [|reflexivity].
    split; [discriminate|intros Heq; contradiction].
Qed.

End FlowProperties.

Section SessionProperties.

Context {Auth Device Env : Type} {ext : @External Auth Device Env}.

Implicit Types (w : @Wizard Auth Env) (i j : gmap string string)
  (verify : @Callable Auth Env).

(** C9: the mobile step calls [login_mobile_otp] with the submitted number
    when that starts with ["+"] and with ["+86"] put in front of it
    otherwise, exactly once.  When the call returns a verification
    callable, that same form of the number is what [self._mobile] holds
    afterwards, and an accepted code on the mobile OTP step then creates an
    entry whose title starts with it. *)
Theorem mobile_number_normalised w i (mobile : string)
    (r : Res (@Callable Auth Env)) (e' : Env) :
  i !! CONF_MOBILE = Some mobile ->
  let sent := if String.prefix "+" mobile then mobile else "+86" +:+ mobile in
  login_mobile_otp (DysonAccountCN VNone) sent (wiz_env w) = (r, e') ->
  let w' := snd (async_step_mobile (Some i) w) in
  sdk_calls w' = sdk_calls w ++ [CallLoginMobileOtp sent] /\
  wiz_env w' = e' /\
  forall verify, r = inr verify ->
    _mobile (self w') = Some sent /\
    _verify (self w') = Some verify /\
    forall j (otp : string) (auth_info : @Value Auth) (e'' : Env),
      j !! CONF_OTP = Some otp ->
      verify [otp] e' = (inr auth_info, e'') ->
      fst (async_step_mobile_otp (Some j) w') =
        inr (CreateEntry (sent +:+ " (" +:+ fmt (_region (self w)) +:+ ")")
               {["region" := of_opt (_region (self w)); "auth" := auth_info]}).
Proof.
  intros Hi sent Hlogin w'. subst w'.
  rewrite (mobile_step_login _ _ _ _ _ Hi Hlogin). fold sent.
  split; [destruct r as [[]|]; reflexivity|].
  split; [destruct r as [[]|]; reflexivity|].
  intros verify ->. simpl. split; [reflexivity|]. split; [reflexivity|].
  intros j otp auth_info e'' Hj Hv.
  unfold async_step_mobile_otp. unfold getitem. rewrite Hj.
  unfold bind at 1, ret at 1. unfold bind at 1, try at 1.
  erewrite call_verify_run; [|reflexivity|exact Hv].
  reflexivity.
Qed.

(** The email step, when the login call returns a verification callable,
    stores it and the submitted email and leaves the region alone. *)
Lemma email_step_stores_session w i (email : string) verify (e2 e3 : Env) :
  i !! CONF_EMAIL = Some email ->
  email_gate_open w email e2 ->
  login_email_otp (DysonAccount VNone) email (_region (self w)) e2 = (inr verify, e3) ->
  let w' := snd (async_step_email (Some i) w) in
  _email (self w') = Some email /\
  _verify (self w') = Some verify /\
  _region (self w') = _region (self w).
Proof.
  intros Hi Hgate Hlogin.
  rewrite (email_step_login _ _ _ _ _ _ Hi Hgate Hlogin). simpl. auto.
Qed.

(** The host is done with a flow at its first entry, so the outcomes of a
    session hold at most one created entry. *)
Lemma run_flow_at_most_one_entry (inputs : list (option (gmap string string)))
    (cur : string) w :
  length (List.filter is_entry (fst (run_flow cur inputs w))) <= 1.
Proof.
  revert cur w. induction inputs as [|i inputs IH]; intros cur w; simpl.
  - lia.
  - destruct (handle_step cur i w) as [[err|[next schema errors|t d|reason]] w'].
    + specialize (IH cur w'). destruct (run_flow cur inputs w'). simpl in *. exact IH.
    + specialize (IH next w'). destruct (run_flow next inputs w'). simpl in *. exact IH.
    + simpl. lia.
    + simpl. lia.
Qed.

Lemma session_at_most_one_entry (e : Env) (submissions : list (gmap string string)) :
  length (List.filter is_entry (fst (session e submissions))) <= 1.
Proof. apply run_flow_at_most_one_entry. Qed.

End SessionProperties.

(** * The properties at work on the sample environment *)

Section Instances.

Import Sample.

Lemma setup_network_error_not_ready_witness :
  devices (DysonAccount auth) down = (inl DysonNetworkError, down) /\
  async_setup_entry email_entry (hass down) =
    (inl (ConfigEntryNotReady DysonNetworkError),
     {| hass_env := down; hass_data := {[DOMAIN := ∅]}; hass_tasks := [];
        hass_log := ["Cannot connect to Dyson cloud service"] |}).
Proof.
  split; [reflexivity|].
  apply (setup_network_error_not_ready email_entry (hass down) (VStr "GB") auth down);
    reflexivity.
Defined.

Lemma setup_one_discovery_per_device_witness :
  exists created,
    hass_tasks (snd (async_setup_entry mobile_entry (hass up))) = [] ++ created /\
    created =
      map (fun device => {| init_domain := DYSON_LOCAL_DOMAIN;
                            init_source := SOURCE_DISCOVERY;
                            init_data := device |}) ["fan"; "purifier"] /\
    length created = 2 /\
    (forall i device, ["fan"; "purifier"] !! i = Some device ->
       init_data <$> created !! i = Some device).
Proof.
  apply (setup_one_discovery_per_device mobile_entry (hass up) (VStr "CN") auth
           ["fan"; "purifier"] up); reflexivity.
Defined.

Lemma setup_success_stores_account_witness :
  (exists h',
     async_setup_entry mobile_entry (hass up) = (inr true, h') /\
     hass_data h' !! DOMAIN ≫= (.!! "m1") =
       Some {| DATA_ACCOUNT := DysonAccountCN auth;
               DATA_DEVICES := ["fan"; "purifier"] |}) /\
  (exists h',
     async_setup_entry email_entry (hass up) = (inr true, h') /\
     hass_data h' !! DOMAIN ≫= (.!! "e1") =
       Some {| DATA_ACCOUNT := DysonAccount auth;
               DATA_DEVICES := ["fan"; "purifier"] |}).
Proof.
  split.
  - exists (snd (async_setup_entry mobile_entry (hass up))).
    assert (Hrun : async_setup_entry mobile_entry (hass up) =
                   (inr true, snd (async_setup_entry mobile_entry (hass up))))
      by reflexivity.
    split; [exact Hrun|].
    destruct (setup_success_stores_account mobile_entry (hass up) _ Hrun)
      as (region & a & account & devs & e' & e'' & dom
          & Hr & Ha & Hcn & _ & Hd & _ & _ & Hstored & _).
    vm_compute in Hr. vm_compute in Ha. inversion Hr; inversion Ha; subst.
    rewrite (Hcn eq_refl) in Hd, Hstored.
    vm_compute in Hd. inversion Hd; subst.
    exact Hstored.
  - exists (snd (async_setup_entry email_entry (hass up))).
    assert (Hrun : async_setup_entry email_entry (hass up) =
                   (inr true, snd (async_setup_entry email_entry (hass up))))
      by reflexivity.
    split; [exact Hrun|].
    destruct (setup_success_stores_account email_entry (hass up) _ Hrun)
      as (region & a & account & devs & e' & e'' & dom
          & Hr & Ha & _ & Hgb & Hd & _ & _ & Hstored & _).
    vm_compute in Hr. vm_compute in Ha. inversion Hr; inversion Ha; subst.
    assert (Hne : @VStr string "GB" <> VStr "CN") by discriminate.
    rewrite (Hgb Hne) in Hd, Hstored.
    vm_compute in Hd. inversion Hd; subst.
    exact Hstored.
Defined.

Lemma email_duplicate_aborts_witness :
  async_step_email (Some {["email" := "a@b.c"]})
      (wizard (cloud [email_entry] (inr []) None) gb_flow) =
    (inr (Abort "already_configured"),
     wizard (cloud [email_entry] (inr []) None) gb_flow) /\
  sdk_calls (snd (async_step_email (Some {["email" := "a@b.c"]})
                    (wizard (cloud [email_entry] (inr []) None) gb_flow))) = [].
Proof.
  apply (email_duplicate_aborts
           (wizard (cloud [email_entry] (inr []) None) gb_flow)
           {["email" := "a@b.c"]} "a@b.c" email_entry).
  - reflexivity.
  - apply list_elem_of_here.
  - reflexivity.
Defined.

Lemma user_step_routes_by_region_witness :
  async_step_user (Some {["region" := "CN"]}) (wizard up new_flow) =
    async_step_mobile None (wizard up cn_flow) /\
  exists step schema errors,
    async_step_user (Some {["region" := "CN"]}) (wizard up new_flow) =
      (inr (ShowForm step schema errors), wizard up cn_flow) /\
    (step = "mobile" <-> "CN" = "CN") /\
    ("CN" <> "CN" -> step = "email").
Proof.
  assert (Hi : ({["region" := "CN"]} : gmap string string) !! CONF_REGION = Some "CN")
    by reflexivity.
  destruct (user_step_routes_by_region (wizard up new_flow) {["region" := "CN"]}
              "CN" Hi) as (Hcn & _ & Hform).
  split; [exact (Hcn eq_refl)|exact Hform].
Defined.

Lemma email_otp_success_creates_entry_witness :
  async_step_email_otp (Some {["otp" := "123456"; "password" := "hunter2"]})
      (wizard up gb_flow_otp) =
    (inr (CreateEntry "a@b.c (GB)" {["region" := VStr "GB"; "auth" := VAuth "token"]}),
     after_call (wizard up gb_flow_otp) (CallVerify ["123456"; "hunter2"]) up
       gb_flow_otp).
Proof.
  apply (email_otp_success_creates_entry (wizard up gb_flow_otp)
           {["otp" := "123456"; "password" := "hunter2"]}
           "123456" "hunter2" "a@b.c" "GB" verify_email (VAuth "token") up);
    reflexivity.
Defined.

Lemma mobile_number_normalised_witness :
  String.prefix "+" "13800000000" = false /\
  sdk_calls (snd (async_step_mobile (Some {["mobile" := "13800000000"]})
                    (wizard up cn_flow))) =
    [CallLoginMobileOtp "+8613800000000"] /\
  _mobile (self (snd (async_step_mobile (Some {["mobile" := "13800000000"]})
                        (wizard up cn_flow)))) = Some "+8613800000000" /\
  fst (async_step_mobile_otp (Some {["otp" := "123456"]})
         (snd (async_step_mobile (Some {["mobile" := "13800000000"]})
                 (wizard up cn_flow)))) =
    inr (CreateEntry "+8613800000000 (CN)"
           {["region" := VStr "CN"; "auth" := VAuth "token"]}).
Proof.
  split; [reflexivity|].
  assert (Hi : ({["mobile" := "13800000000"]} : gmap string string) !! CONF_MOBILE
               = Some "13800000000") by reflexivity.
  assert (Hj : ({["otp" := "123456"]} : gmap string string) !! CONF_OTP
               = Some "123456") by reflexivity.
  assert (Hlogin : login_mobile_otp (DysonAccountCN VNone) "+8613800000000" up
                   = (inr verify_mobile, up)) by reflexivity.
  assert (Hcode : verify_mobile ["123456"] up = (inr (VAuth "token"), up))
    by reflexivity.
  destruct (mobile_number_normalised (wizard up cn_flow)
              {["mobile" := "13800000000"]} "13800000000"
              (inr verify_mobile) up Hi Hlogin)
    as (Hcalls & _ & Hstored).
  destruct (Hstored verify_mobile eq_refl) as (Hmobile & _ & Hentry).
  split; [exact Hcalls|]. split; [exact Hmobile|].
  exact (Hentry {["otp" := "123456"]} "123456" (VAuth "token") up Hj Hcode).
Defined.

Lemma login_errors_redisplay_step_witness :
  async_step_email (Some {["email" := "a@b.c"]})
      (wizard (refusing DysonNetworkError) gb_flow) =
    (inr (ShowForm "email"
            [{| field_key := "email"; field_default := Some "a@b.c";
                field_type := VolStr |}]
            (Some {["base" := "cannot_connect"]})),
     after_call (wizard (refusing DysonNetworkError) gb_flow)
       (CallLoginEmailOtp "a@b.c" (Some "GB"))
       (with_unique_id "global_a@b.c" (refusing DysonNetworkError)) gb_flow) /\
  async_step_mobile (Some {["mobile" := "13800000000"]})
      (wizard (refusing DysonOTPTooFrequently) cn_flow) =
    (inr (ShowForm "mobile"
            [{| field_key := "mobile"; field_default := Some "13800000000";
                field_type := VolStr |}]
            (Some {["base" := "otp_too_frequent"]})),
     after_call (wizard (refusing DysonOTPTooFrequently) cn_flow)
       (CallLoginMobileOtp "+8613800000000")
       (refusing DysonOTPTooFrequently) cn_flow).
Proof.
  split.
  - assert (Hi : ({["email" := "a@b.c"]} : gmap string string) !! CONF_EMAIL
                 = Some "a@b.c") by reflexivity.
    assert (Hgate : email_gate_open (wizard (refusing DysonNetworkError) gb_flow)
                      "a@b.c"
                      (with_unique_id "global_a@b.c" (refusing DysonNetworkError))).
    { split; [reflexivity|].
      exists (with_unique_id "global_a@b.c" (refusing DysonNetworkError)).
      split; reflexivity. }
    apply (proj1 (login_errors_redisplay_step
                    (wizard (refusing DysonNetworkError) gb_flow)
                    {["email" := "a@b.c"]} "a@b.c"
                    (with_unique_id "global_a@b.c" (refusing DysonNetworkError))
                    (with_unique_id "global_a@b.c" (refusing DysonNetworkError)))
             Hi Hgate DysonNetworkError "cannot_connect").
    + reflexivity.
    + apply list_elem_of_here.
  - apply (proj2 (login_errors_redisplay_step
                    (wizard (refusing DysonOTPTooFrequently) cn_flow)
                    {["mobile" := "13800000000"]} "13800000000"
                    (refusing DysonOTPTooFrequently)
                    (refusing DysonOTPTooFrequently))).
    + reflexivity.
    + reflexivity.
Defined.

(** C2: every login exception is to come back as a form error on the step
    that raised it.  The code misses two: the mobile step has no handler for
    [DysonNetworkError], which the email step turns into [cannot_connect],
    and the email step has none for [DysonOTPTooFrequently], which the
    mobile step turns into [otp_too_frequent]; raised by the login call,
    each leaves the step as an exception, and no form is shown. *)
Lemma login_errors_not_all_caught :
  fst (async_step_mobile (Some {["mobile" := "13800000000"]})
         (wizard (refusing DysonNetworkError) cn_flow)) = inl DysonNetworkError /\
  fst (async_step_email (Some {["email" := "a@b.c"]})
         (wizard (refusing DysonOTPTooFrequently) gb_flow)) = inl DysonOTPTooFrequently /\
  ~ (forall (step : option (gmap string string) -> M (@Wizard string env) FlowResult)
            (key : string) (err : exn) (code : string),
       (step, key) ∈ [(async_step_email, "email"); (async_step_mobile, "mobile")] ->
       (err, code) ∈ [(DysonNetworkError, "cannot_connect");
                      (DysonInvalidAccountStatus, "email_not_registered");
                      (DysonOTPTooFrequently, "otp_too_frequent")] ->
       forall (s : @Flow string env) (ident : string),
       exists step_id schema,
         fst (step (Some {[key := ident]}) (wizard (refusing err) s)) =
           inr (ShowForm step_id schema (Some {["base" := code]}))).
Proof.
  split; [reflexivity|]. split; [reflexivity|].
  intros Hclaim.
  destruct (Hclaim async_step_mobile "mobile" DysonNetworkError "cannot_connect")
    with (s := cn_flow) (ident := "13800000000") as (step_id & schema & Hform).
  - apply list_elem_of_further, list_elem_of_here.
  - apply list_elem_of_here.
  - vm_compute in Hform. discriminate Hform.
Qed.

(** C1 at work on the mobile branch: an entry for the number exists, and
    the session for the same number still calls the login API, invokes the
    verification callable and ends in a second entry with the same title.
    The mobile step never looks at the current entries. *)
Theorem mobile_branch_accepts_duplicate :
  title mobile_entry = "+8613800000000 (CN)" /\
  last (fst (session (cloud [mobile_entry] (inr []) None)
               [{["region" := "CN"]}; {["mobile" := "13800000000"]};
                {["otp" := "123456"]}])) =
    Some (inr (CreateEntry "+8613800000000 (CN)"
                 {["region" := VStr "CN"; "auth" := VAuth "token"]})) /\
  sdk_calls (snd (session (cloud [mobile_entry] (inr []) None)
                    [{["region" := "CN"]}; {["mobile" := "13800000000"]};
                     {["otp" := "123456"]}])) =
    [CallLoginMobileOtp "+8613800000000"; CallVerify ["123456"]].
Proof. repeat split; vm_compute; reflexivity. Qed.

End Instances.

(** * Further properties of [__init__.py] *)

Section SetupOutcomes.

Context {Auth Device Env : Type} {ext : @External Auth Device Env}.

Implicit Types (entry : @ConfigEntry Auth) (h : @Hass Auth Device Env)
  (dom : gmap string (@RuntimeData Auth Device)).

(** Building the account never changes the state. *)
Lemma make_account_state entry h : snd (make_account entry h) = h.
Proof.
  unfold make_account. unfold_monad.
  destruct (data entry !! CONF_REGION) as [region|]; [|reflexivity].
  destruct (value_is_str region "CN");
    destruct (data entry !! CONF_AUTH); reflexivity.
Qed.

(** The routine, stage by stage, once the entry has both keys. *)
Lemma setup_entry_run entry h (region auth : @Value Auth) :
  data entry !! CONF_REGION = Some region ->
  data entry !! CONF_AUTH = Some auth ->
  async_setup_entry entry h =
    match devices (account_for region auth) (hass_env h) with
    | (inl DysonNetworkError, e') =>
        (inl (ConfigEntryNotReady DysonNetworkError),
         {| hass_env := e'; hass_data := hass_data h; hass_tasks := hass_tasks h;
            hass_log := hass_log h ++ ["Cannot connect to Dyson cloud service"] |})
    | (inl err, e') =>
        (inl err,
         {| hass_env := e'; hass_data := hass_data h; hass_tasks := hass_tasks h;
            hass_log := hass_log h |})
    | (inr devs, e') =>
        match hass_data h !! DOMAIN with
        | None => (inl (KeyError DOMAIN), after_listing h devs e')
        | Some dom =>
            let h1 := after_store entry h (account_for region auth) devs dom e' in
            match async_forward_entry_setups entry PLATFORMS e' with
            | (inl err, e'') => (inl err, after_forward entry h1 e'')
            | (inr _, e'') => (inr true, after_forward entry h1 e'')
            end
        end
    end.
Proof.
  intros Hr Ha. unfold async_setup_entry, account_for.
  unfold bind at 1. rewrite (make_account_lookup _ _ _ _ Hr Ha).
  unfold bind at 1, try, hass_call.
  destruct (devices _ (hass_env h)) as [[err|devs] e']; simpl.
  { destruct err; reflexivity. }
  unfold bind at 1. rewrite for_each_create_task.
  unfold_monad. simpl.
  destruct (hass_data h !! DOMAIN) as [dom|]; simpl; [|reflexivity].
  unfold set_hass_data, modify, hass_forward; simpl.
  destruct (async_forward_entry_setups entry PLATFORMS e') as [[err|[]] e''];
    reflexivity.
Qed.

(** What the routine can do to [hass.data]: nothing, or one insertion under
    the entry's id in the registry of the domain, followed by what the
    forwarding call writes outside the registry. *)
Lemma setup_entry_data_cases entry h :
  hass_data (snd (async_setup_entry entry h)) = hass_data h \/
  exists dom stored e',
    hass_data h !! DOMAIN = Some dom /\
    hass_data (snd (async_setup_entry entry h)) =
      keep_registry (<[DOMAIN := <[entry_id entry := stored]> dom]> (hass_data h))
        (forward_writes entry PLATFORMS e'
           (<[DOMAIN := <[entry_id entry := stored]> dom]> (hass_data h))).
Proof.
  destruct (data entry !! CONF_REGION) as [region|] eqn:Hr.
  - destruct (data entry !! CONF_AUTH) as [auth|] eqn:Ha.
    + rewrite (setup_entry_run _ _ _ _ Hr Ha).
      destruct (devices _ (hass_env h)) as [[err|devs] e'].
      { left. destruct err; reflexivity. }
      destruct (hass_data h !! DOMAIN) as [dom|] eqn:Hdom; [|left; reflexivity].
      right. exists dom. eexists. exists e'. split; [reflexivity|].
      cbv zeta.
      destruct (async_forward_entry_setups entry PLATFORMS e') as [[err|u] e''];
        reflexivity.
    + left. unfold async_setup_entry, make_account. unfold_monad.
      rewrite Hr. simpl. destruct (value_is_str region "CN"); rewrite Ha; reflexivity.
  - left. unfold async_setup_entry, make_account. unfold_monad.
    rewrite Hr. reflexivity.
Qed.

(** X1: after [async_setup], the setup of an entry whose listing and
    forwarding succeed returns [True], and the registry of the domain holds
    that entry's account and devices and nothing else, whatever it held
    before [async_setup]. *)
Theorem setup_after_async_setup entry h (config : gmap string (@Value Auth))
    (region auth : @Value Auth) (devs : list Device) (e' e'' : Env) :
  data entry !! CONF_REGION = Some region ->
  data entry !! CONF_AUTH = Some auth ->
  devices (account_for region auth) (hass_env h) = (inr devs, e') ->
  async_forward_entry_setups entry PLATFORMS e' = (inr tt, e'') ->
  let h0 := snd (async_setup config h) in
  fst (async_setup config h) = inr true /\
  fst (async_setup_entry entry h0) = inr true /\
  hass_data (snd (async_setup_entry entry h0)) !! DOMAIN =
    Some {[entry_id entry :=
             {| DATA_ACCOUNT := account_for region auth; DATA_DEVICES := devs |}]}.
Proof.
  intros Hr Ha Hd Hf h0. subst h0.
  split; [reflexivity|].
  rewrite (setup_entry_run _ _ _ _ Hr Ha).
  unfold async_setup. unfold_monad. unfold set_hass_data, modify. simpl.
  rewrite Hd. rewrite lookup_insert_eq. cbv zeta. rewrite Hf. simpl.
  split; [reflexivity|].
  rewrite keep_registry_lookup, lookup_insert_eq. reflexivity.
Qed.

(** X2: when [hass.data] has no registry for the domain ([async_setup] did
    not run), the setup of an entry whose listing succeeds raises
    [KeyError] for the domain, after it has created the discovery task of
    every device; nothing is stored and the platforms are not set up. *)
Theorem setup_without_registry_raises entry h (region auth : @Value Auth)
    (devs : list Device) (e' : Env) :
  data entry !! CONF_REGION = Some region ->
  data entry !! CONF_AUTH = Some auth ->
  devices (account_for region auth) (hass_env h) = (inr devs, e') ->
  hass_data h !! DOMAIN = None ->
  async_setup_entry entry h =
    (inl (KeyError DOMAIN),
     {| hass_env := e'; hass_data := hass_data h;
        hass_tasks := hass_tasks h ++ map discovery_task devs;
        hass_log := hass_log h |}).
Proof.
  intros Hr Ha Hd Hdom.
  rewrite (setup_entry_run _ _ _ _ Hr Ha), Hd, Hdom. reflexivity.
Qed.

(** X3: an exception of the listing call other than [DysonNetworkError]
    leaves [async_setup_entry] as it is: it is not turned into
    [ConfigEntryNotReady], nothing is logged, no task is created and nothing
    is stored. *)
Theorem setup_other_listing_error_propagates entry h (region auth : @Value Auth)
    (err : exn) (e' : Env) :
  data entry !! CONF_REGION = Some region ->
  data entry !! CONF_AUTH = Some auth ->
  devices (account_for region auth) (hass_env h) = (inl err, e') ->
  err <> DysonNetworkError ->
  async_setup_entry entry h =
    (inl err,
     {| hass_env := e'; hass_data := hass_data h; hass_tasks := hass_tasks h;
        hass_log := hass_log h |}).
Proof.
  intros Hr Ha Hd Hne.
  rewrite (setup_entry_run _ _ _ _ Hr Ha), Hd.
  destruct err; try reflexivity. contradiction.
Qed.

(** X4: an entry whose data lacks the region, or has the region but lacks
    the auth payload, makes [async_setup_entry] raise [KeyError] for that
    key before anything else happens: the state is untouched, so the cloud
    was not asked for the devices. *)
Theorem setup_missing_key_raises entry h (key : string) :
  (key = CONF_REGION /\ data entry !! CONF_REGION = None) \/
  (key = CONF_AUTH /\ is_Some (data entry !! CONF_REGION) /\
   data entry !! CONF_AUTH = None) ->
  async_setup_entry entry h = (inl (KeyError key), h).
Proof.
  intros [(-> & Hr)|(-> & [region Hr] & Ha)];
    unfold async_setup_entry, make_account; unfold_monad; rewrite Hr; simpl.
  - reflexivity.
  - destruct (value_is_str region "CN"); rewrite Ha; reflexivity.
Qed.

(** X5: whatever its outcome, [async_setup_entry] leaves alone what the
    registry of the domain holds under any other entry id.  Under a key
    other than the domain the routine itself writes nothing: what
    [hass.data] holds there afterwards is what it held before, or what the
    forwarding call left there, having found it as it was before. *)
Theorem setup_keeps_other_entries entry h (key id : string) :
  key <> DOMAIN ->
  id <> entry_id entry ->
  registered (snd (async_setup_entry entry h)) id = registered h id /\
  (hass_data (snd (async_setup_entry entry h)) !! key = hass_data h !! key \/
   exists (e' : Env) (found : gmap string (gmap string (@RuntimeData Auth Device))),
     (forall k, k <> DOMAIN -> found !! k = hass_data h !! k) /\
     hass_data (snd (async_setup_entry entry h)) !! key =
       forward_writes entry PLATFORMS e' found !! key).
Proof.
  intros Hkey Hid. unfold registered.
  destruct (setup_entry_data_cases entry h) as [->|(dom & stored & e' & Hdom & ->)].
  - split; [reflexivity|]. left. reflexivity.
  - split.
    + rewrite keep_registry_lookup, lookup_insert_eq, Hdom. simpl.
      rewrite lookup_insert_ne by congruence. reflexivity.
    + right. eexists e', _. split; [|apply keep_registry_lookup_ne, Hkey].
      intros k Hk. rewrite lookup_insert_ne by congruence. reflexivity.
Qed.

(** X6: when forwarding the entry to the platforms raises, the exception
    leaves [async_setup_entry], but the account and the devices are already
    stored under the entry's id and the discovery tasks are already
    created. *)
Theorem setup_forward_failure_keeps_stored entry h (region auth : @Value Auth)
    (devs : list Device) dom (err : exn) (e' e'' : Env) :
  data entry !! CONF_REGION = Some region ->
  data entry !! CONF_AUTH = Some auth ->
  devices (account_for region auth) (hass_env h) = (inr devs, e') ->
  hass_data h !! DOMAIN = Some dom ->
  async_forward_entry_setups entry PLATFORMS e' = (inl err, e'') ->
  fst (async_setup_entry entry h) = inl err /\
  registered (snd (async_setup_entry entry h)) (entry_id entry) =
    Some {| DATA_ACCOUNT := account_for region auth; DATA_DEVICES := devs |} /\
  hass_tasks (snd (async_setup_entry entry h)) =
    hass_tasks h ++ map discovery_task devs.
Proof.
  intros Hr Ha Hd Hdom Hf.
  rewrite (setup_entry_run _ _ _ _ Hr Ha), Hd, Hdom. cbv zeta. rewrite Hf.
  cbn [fst snd].
  split; [reflexivity|]. split; [|reflexivity].
  unfold registered, after_forward, after_store. cbn [hass_data].
  rewrite keep_registry_lookup, lookup_insert_eq. simpl.
  apply lookup_insert_eq.
Qed.

(** X7: setting an entry up, unloading it and setting it up again: the
    unload removes nothing, the second setup replaces what the first stored
    under the entry's id by the new listing, and a discovery task is created
    again for every device, after those of the first setup. *)
Theorem reload_replaces_stored_devices entry h (region auth : @Value Auth)
    (devs1 devs2 : list Device) dom (e1 e2 e3 e4 : Env) :
  data entry !! CONF_REGION = Some region ->
  data entry !! CONF_AUTH = Some auth ->
  hass_data h !! DOMAIN = Some dom ->
  devices (account_for region auth) (hass_env h) = (inr devs1, e1) ->
  async_forward_entry_setups entry PLATFORMS e1 = (inr tt, e2) ->
  devices (account_for region auth) e2 = (inr devs2, e3) ->
  async_forward_entry_setups entry PLATFORMS e3 = (inr tt, e4) ->
  let h1 := snd (async_setup_entry entry h) in
  let h2 := snd (async_unload_entry entry h1) in
  let h3 := snd (async_setup_entry entry h2) in
  registered h2 (entry_id entry) =
    Some {| DATA_ACCOUNT := account_for region auth; DATA_DEVICES := devs1 |} /\
  fst (async_setup_entry entry h2) = inr true /\
  hass_data h3 !! DOMAIN =
    Some (<[entry_id entry :=
              {| DATA_ACCOUNT := account_for region auth; DATA_DEVICES := devs2 |}]>
            dom) /\
  hass_tasks h3 =
    hass_tasks h ++ map discovery_task devs1 ++ map discovery_task devs2.
Proof.
  intros Hr Ha Hdom Hd1 Hf1 Hd2 Hf2 h1 h2 h3. subst h3 h2.
  assert (Hh1 : h1 = after_forward entry
                       (after_store entry h (account_for region auth) devs1 dom e1) e2).
  { subst h1. rewrite (setup_entry_run entry h _ _ Hr Ha), Hd1, Hdom.
    cbv zeta. rewrite Hf1. reflexivity. }
  clearbody h1.
  assert (Hdom1 : hass_data h1 !! DOMAIN =
                  Some (<[entry_id entry :=
                            {| DATA_ACCOUNT := account_for region auth;
                               DATA_DEVICES := devs1 |}]> dom)).
  { rewrite Hh1. unfold after_forward, after_store. cbn [hass_data].
    rewrite keep_registry_lookup. apply lookup_insert_eq. }
  assert (Henv1 : hass_env h1 = e2) by (rewrite Hh1; reflexivity).
  assert (Htasks1 : hass_tasks h1 = hass_tasks h ++ map discovery_task devs1)
    by (rewrite Hh1; reflexivity).
  assert (Hunload : snd (async_unload_entry entry h1) = h1) by reflexivity.
  rewrite Hunload.
  rewrite (setup_entry_run entry h1 _ _ Hr Ha), Henv1, Hd2, Hdom1.
  cbv zeta. rewrite Hf2. cbn [fst snd].
  split.
  { unfold registered. rewrite Hdom1. simpl. apply lookup_insert_eq. }
  split; [reflexivity|].
  unfold after_forward, after_store. cbn [hass_data hass_tasks]. split.
  - rewrite keep_registry_lookup, lookup_insert_eq. f_equal. apply insert_insert_eq.
  - rewrite Htasks1, <- app_assoc. reflexivity.
Qed.

End SetupOutcomes.

(** * Further properties of [config_flow.py] *)

Section WizardOutcomes.

Context {Auth Device Env : Type} {ext : @External Auth Device Env}.

Implicit Types (w : @Wizard Auth Env) (i j : gmap string string)
  (verify : @Callable Auth Env).

(** The two OTP steps, once the submission has its keys and a callable is
    stored: every outcome of the callable. *)
Lemma email_otp_run w i (otp password : string) verify
    (r : Res (@Value Auth)) (e' : Env) :
  i !! CONF_OTP = Some otp ->
  i !! CONF_PASSWORD = Some password ->
  _verify (self w) = Some verify ->
  verify [otp; password] (wiz_env w) = (r, e') ->
  async_step_email_otp (Some i) w =
    let w' := after_call w (CallVerify [otp; password]) e' (self w) in
    match r with
    | inl DysonLoginFailure =>
        (inr (email_otp_form {["base" := "invalid_auth"]}), w')
    | inl err => (inl err, w')
    | inr auth_info =>
        (inr (CreateEntry (fmt (_email (self w)) +:+ " (" +:+ fmt (_region (self w)) +:+ ")")
                (entry_data (_region (self w)) auth_info)), w')
    end.
Proof.
  intros Ho Hp Hv Hcall. unfold async_step_email_otp.
  unfold getitem. rewrite Ho, Hp.
  unfold bind at 1, ret at 1. unfold bind at 1, ret at 1.
  unfold bind at 1, try at 1.
  rewrite (call_verify_run _ _ _ _ _ Hv Hcall).
  destruct r as [err|auth_info]; [destruct err|]; reflexivity.
Qed.

Lemma mobile_otp_run w i (otp : string) verify (r : Res (@Value Auth)) (e' : Env) :
  i !! CONF_OTP = Some otp ->
  _verify (self w) = Some verify ->
  verify [otp] (wiz_env w) = (r, e') ->
  async_step_mobile_otp (Some i) w =
    let w' := after_call w (CallVerify [otp]) e' (self w) in
    match r with
    | inl DysonLoginFailure =>
        (inr (mobile_otp_form {["base" := "invalid_otp"]}), w')
    | inl err => (inl err, w')
    | inr auth_info =>
        (inr (CreateEntry (fmt (_mobile (self w)) +:+ " (" +:+ fmt (_region (self w)) +:+ ")")
                (entry_data (_region (self w)) auth_info)), w')
    end.
Proof.
  intros Ho Hv Hcall. unfold async_step_mobile_otp.
  unfold getitem. rewrite Ho.
  unfold bind at 1, ret at 1.
  unfold bind at 1, try at 1.
  rewrite (call_verify_run _ _ _ _ _ Hv Hcall).
  destruct r as [err|auth_info]; [destruct err|]; reflexivity.
Qed.

(** An OTP step that returns a created entry made it from the stored
    region and a payload. *)
Lemma email_otp_created w (info : option (gmap string string)) (t : string)
    (d : gmap string (@Value Auth)) :
  fst (async_step_email_otp info w) = inr (CreateEntry t d) ->
  exists auth_info, d = entry_data (_region (self w)) auth_info.
Proof.
  destruct info as [i|]; [|discriminate].
  unfold async_step_email_otp, getitem.
  destruct (i !! CONF_OTP) as [otp|]; [|discriminate].
  destruct (i !! CONF_PASSWORD) as [password|]; [|discriminate].
  unfold bind at 1, ret at 1. unfold bind at 1, ret at 1.
  unfold bind at 1, try at 1. unfold call_verify.
  unfold bind at 1, gets at 1.
  destruct (_verify (self w)) as [verify|]; [|discriminate].
  unfold bind, record_call, modify, wiz_call. simpl.
  destruct (verify [otp; password] (wiz_env w)) as [[err|auth_info] e'].
  - destruct err; discriminate.
  - unfold gets, ret. simpl. intros Heq. inversion Heq.
    exists auth_info. reflexivity.
Qed.

Lemma mobile_otp_created w (info : option (gmap string string)) (t : string)
    (d : gmap string (@Value Auth)) :
  fst (async_step_mobile_otp info w) = inr (CreateEntry t d) ->
  exists auth_info, d = entry_data (_region (self w)) auth_info.
Proof.
  destruct info as [i|]; [|discriminate].
  unfold async_step_mobile_otp, getitem.
  destruct (i !! CONF_OTP) as [otp|]; [|discriminate].
  unfold bind at 1, ret at 1.
  unfold bind at 1, try at 1. unfold call_verify.
  unfold bind at 1, gets at 1.
  destruct (_verify (self w)) as [verify|]; [|discriminate].
  unfold bind, record_call, modify, wiz_call. simpl.
  destruct (verify [otp] (wiz_env w)) as [[err|auth_info] e'].
  - destruct err; discriminate.
  - unfold gets, ret. simpl. intros Heq. inversion Heq.
    exists auth_info. reflexivity.
Qed.

(** The [user] step with a region: the region is stored and the form of the
    branch is returned. *)
Lemma user_step_run w i (region : string) :
  i !! CONF_REGION = Some region ->
  async_step_user (Some i) w =
    (inr (if bool_decide (region = "CN") then mobile_form None ∅
          else email_form None ∅),
     {| wiz_env := wiz_env w; self := set_region (Some region) (self w);
        sdk_calls := sdk_calls w |}).
Proof.
  intros Hi. unfold async_step_user, getitem. rewrite Hi.
  destruct (bool_decide (region = "CN")) eqn:Hcn;
    unfold_monad; unfold set_self, modify; simpl; rewrite Hcn; reflexivity.
Qed.

Lemma normalize_mobile_prefix (mobile : string) :
  String.prefix "+" (normalize_mobile mobile) = true.
Proof.
  unfold normalize_mobile.
  destruct (String.prefix "+" mobile) eqn:Hp; [exact Hp|reflexivity].
Qed.

Lemma region_names_fst (regions : list (string * string)) :
  map fst (map (fun '(code, name) => (code, name +:+ " (" +:+ code +:+ ")")) regions)
  = map fst regions.
Proof.
  induction regions as [|[code name] regions IH]; simpl; [reflexivity|].
  rewrite IH. reflexivity.
Qed.

(** Any of the four identifier and OTP steps, called without input,
    answers with its own form, without errors and with an empty default,
    and touches nothing: no call into the account client, no change to the
    session. *)
Theorem steps_without_input_show_form w :
  async_step_email None w =
    (inr (ShowForm "email"
            [{| field_key := "email"; field_default := Some EmptyString;
                field_type := VolStr |}] (Some ∅)), w) /\
  async_step_mobile None w =
    (inr (ShowForm "mobile"
            [{| field_key := "mobile"; field_default := Some EmptyString;
                field_type := VolStr |}] (Some ∅)), w) /\
  async_step_email_otp None w =
    (inr (ShowForm "email_otp"
            [{| field_key := "password"; field_default := None; field_type := VolStr |};
             {| field_key := "otp"; field_default := None; field_type := VolStr |}]
            (Some ∅)), w) /\
  async_step_mobile_otp None w =
    (inr (ShowForm "mobile_otp"
            [{| field_key := "otp"; field_default := None; field_type := VolStr |}]
            (Some ∅)), w).
Proof. repeat split; reflexivity. Qed.

(** X8: the [user] step without input shows the form [user] whose only
    field is the region, to be picked among the region codes of the SDK, in
    the SDK's order, each labelled with its name followed by the code in
    parentheses; nothing is touched. *)
Theorem user_form_offers_sdk_regions w :
  exists choices,
    async_step_user None w =
      (inr (ShowForm "user"
              [{| field_key := "region"; field_default := None;
                  field_type := VolIn choices |}] None), w) /\
    map fst choices = map fst REGIONS /\
    forall n code name,
      REGIONS !! n = Some (code, name) ->
      choices !! n = Some (code, name +:+ " (" +:+ code +:+ ")").
Proof.
  exists region_names. split; [reflexivity|]. split.
  - apply region_names_fst.
  - intros n code name Hn. unfold region_names.
    rewrite list_lookup_fmap, Hn. reflexivity.
Qed.

(** X9: a submission that lacks the key a step reads makes the step raise
    [KeyError] for that key, and nothing else happens: no call into the
    account client, no change to the session.  The email OTP step reads the
    code before the password. *)
Theorem steps_missing_key_raise w i (key : string) :
  i !! key = None ->
  (key = CONF_REGION ->
     async_step_user (Some i) w = (inl (KeyError CONF_REGION), w)) /\
  (key = CONF_EMAIL ->
     async_step_email (Some i) w = (inl (KeyError CONF_EMAIL), w)) /\
  (key = CONF_MOBILE ->
     async_step_mobile (Some i) w = (inl (KeyError CONF_MOBILE), w)) /\
  (key = CONF_OTP ->
     async_step_email_otp (Some i) w = (inl (KeyError CONF_OTP), w)) /\
  (key = CONF_PASSWORD -> is_Some (i !! CONF_OTP) ->
     async_step_email_otp (Some i) w = (inl (KeyError CONF_PASSWORD), w)) /\
  (key = CONF_OTP ->
     async_step_mobile_otp (Some i) w = (inl (KeyError CONF_OTP), w)).
Proof.
  intros Hkey. repeat split; intros ->.
  - unfold async_step_user, getitem. rewrite Hkey. reflexivity.
  - unfold async_step_email, getitem. rewrite Hkey. reflexivity.
  - unfold async_step_mobile, getitem. rewrite Hkey. reflexivity.
  - unfold async_step_email_otp, getitem. rewrite Hkey. reflexivity.
  - intros [otp Ho].
    unfold async_step_email_otp, getitem. rewrite Ho, Hkey. reflexivity.
  - unfold async_step_mobile_otp, getitem. rewrite Hkey. reflexivity.
Qed.

(** X10: on the email step, when the uniqueness checks pass and the login
    call returns a verification callable, the step stores the callable and
    the email, leaves the region as it was, has called [login_email_otp]
    once with the email and the stored region, and answers with the form of
    the email OTP step, without errors. *)
Theorem email_step_success w i (email : string) verify (e2 e3 : Env) :
  i !! CONF_EMAIL = Some email ->
  email_gate_open w email e2 ->
  login_email_otp (DysonAccount VNone) email (_region (self w)) e2 = (inr verify, e3) ->
  async_step_email (Some i) w =
    (inr (ShowForm "email_otp"
            [{| field_key := "password"; field_default := None; field_type := VolStr |};
             {| field_key := "otp"; field_default := None; field_type := VolStr |}]
            (Some ∅)),
     {| wiz_env := e3;
        self := {| _region := _region (self w); _mobile := _mobile (self w);
                   _email := Some email; _verify := Some verify |};
        sdk_calls := sdk_calls w ++ [CallLoginEmailOtp email (_region (self w))] |}).
Proof.
  intros Hi Hgate Hlogin.
  rewrite (email_step_login _ _ _ _ _ _ Hi Hgate Hlogin). reflexivity.
Qed.

(** X11: on the email step, an exception of the login call other than
    [DysonNetworkError] and [DysonInvalidAccountStatus] leaves the step as
    it is; no form is shown and the session keeps its fields (nothing is
    stored as callable or email). *)
Theorem email_step_other_errors_propagate w i (email : string) (err : exn)
    (e2 e3 : Env) :
  i !! CONF_EMAIL = Some email ->
  email_gate_open w email e2 ->
  login_email_otp (DysonAccount VNone) email (_region (self w)) e2 = (inl err, e3) ->
  err <> DysonNetworkError ->
  err <> DysonInvalidAccountStatus ->
  async_step_email (Some i) w =
    (inl err,
     {| wiz_env := e3; self := self w;
        sdk_calls := sdk_calls w ++ [CallLoginEmailOtp email (_region (self w))] |}).
Proof.
  intros Hi Hgate Hlogin Hn Hs.
  rewrite (email_step_login _ _ _ _ _ _ Hi Hgate Hlogin).
  destruct err; try reflexivity; contradiction.
Qed.

(** X12: on the mobile step, an exception of the login call other than
    [DysonOTPTooFrequently] (a [DysonNetworkError], say) leaves the step as
    it is; no form is shown and the session keeps its fields. *)
Theorem mobile_step_other_errors_propagate w i (mobile : string) (err : exn)
    (e' : Env) :
  i !! CONF_MOBILE = Some mobile ->
  login_mobile_otp (DysonAccountCN VNone) (normalize_mobile mobile) (wiz_env w)
    = (inl err, e') ->
  err <> DysonOTPTooFrequently ->
  async_step_mobile (Some i) w =
    (inl err,
     {| wiz_env := e'; self := self w;
        sdk_calls := sdk_calls w ++ [CallLoginMobileOtp (normalize_mobile mobile)] |}).
Proof.
  intros Hi Hlogin Hne.
  rewrite (mobile_step_login _ _ _ _ _ Hi Hlogin).
  destruct err; try reflexivity; contradiction.
Qed.

(** X13: on the email step, when no current entry has the unique id but
    the host raises while the unique id is set or while it checks that the
    id is not configured, that exception leaves the step and
    [login_email_otp] is not called; the session is unchanged. *)
Theorem email_step_host_abort_skips_login w i (email : string) (err : exn)
    (e' : Env) :
  i !! CONF_EMAIL = Some email ->
  already_configured ("global_" +:+ email) (_async_current_entries (wiz_env w)) = false ->
  async_set_unique_id ("global_" +:+ email) (wiz_env w) = (inl err, e') \/
  (exists e1, async_set_unique_id ("global_" +:+ email) (wiz_env w) = (inr tt, e1) /\
              _abort_if_unique_id_configured e1 = (inl err, e')) ->
  async_step_email (Some i) w =
    (inl err, {| wiz_env := e'; self := self w; sdk_calls := sdk_calls w |}).
Proof.
  intros Hi Hfree Hhost. unfold async_step_email.
  unfold getitem. rewrite Hi.
  unfold bind at 1, ret at 1. unfold bind at 1, gets at 1. rewrite Hfree.
  unfold bind at 1, wiz_call at 1.
  destruct Hhost as [Hset|(e1 & Hset & Hcheck)]; rewrite Hset; [reflexivity|].
  unfold bind at 1, wiz_call at 1. simpl. rewrite Hcheck. reflexivity.
Qed.

End WizardOutcomes.

Section WizardSessions.

Context {Auth Device Env : Type} {ext : @External Auth Device Env}.

Implicit Types (w : @Wizard Auth Env) (i j : gmap string string)
  (verify : @Callable Auth Env).

(** X14: on the email OTP step, a submission the callable rejects with
    [DysonLoginFailure] brings the form back with the error [invalid_auth]
    and leaves the session as it was, so that a second submission which the
    callable accepts creates the entry, for the stored email and region;
    the callable was invoked once per submission. *)
Theorem email_otp_rejected_then_accepted w i j (otp1 pw1 otp2 pw2 : string)
    verify (auth_info : @Value Auth) (e1 e2 : Env) :
  i !! CONF_OTP = Some otp1 -> i !! CONF_PASSWORD = Some pw1 ->
  j !! CONF_OTP = Some otp2 -> j !! CONF_PASSWORD = Some pw2 ->
  _verify (self w) = Some verify ->
  verify [otp1; pw1] (wiz_env w) = (inl DysonLoginFailure, e1) ->
  verify [otp2; pw2] e1 = (inr auth_info, e2) ->
  let w1 := snd (async_step_email_otp (Some i) w) in
  fst (async_step_email_otp (Some i) w) =
    inr (ShowForm "email_otp"
           [{| field_key := "password"; field_default := None; field_type := VolStr |};
            {| field_key := "otp"; field_default := None; field_type := VolStr |}]
           (Some {["base" := "invalid_auth"]})) /\
  self w1 = self w /\
  async_step_email_otp (Some j) w1 =
    (inr (CreateEntry (fmt (_email (self w)) +:+ " (" +:+ fmt (_region (self w)) +:+ ")")
            (entry_data (_region (self w)) auth_info)),
     {| wiz_env := e2; self := self w;
        sdk_calls := sdk_calls w ++ [CallVerify [otp1; pw1]; CallVerify [otp2; pw2]] |}).
Proof.
  intros Hi1 Hi2 Hj1 Hj2 Hv Hrej Hacc w1. subst w1.
  rewrite (email_otp_run _ _ _ _ _ _ _ Hi1 Hi2 Hv Hrej). cbn [fst snd].
  split; [reflexivity|]. split; [reflexivity|].
  rewrite (email_otp_run (after_call w (CallVerify [otp1; pw1]) e1 (self w))
             j otp2 pw2 verify (inr auth_info) e2 Hj1 Hj2 Hv Hacc).
  unfold after_call. cbn. rewrite <- app_assoc. reflexivity.
Qed.

(** X15: on the mobile OTP step, a code the callable rejects with
    [DysonLoginFailure] brings the form back with the error [invalid_otp]
    and leaves the session as it was, so that a second code which the
    callable accepts creates the entry, for the stored number and region. *)
Theorem mobile_otp_rejected_then_accepted w i j (otp1 otp2 : string)
    verify (auth_info : @Value Auth) (e1 e2 : Env) :
  i !! CONF_OTP = Some otp1 ->
  j !! CONF_OTP = Some otp2 ->
  _verify (self w) = Some verify ->
  verify [otp1] (wiz_env w) = (inl DysonLoginFailure, e1) ->
  verify [otp2] e1 = (inr auth_info, e2) ->
  let w1 := snd (async_step_mobile_otp (Some i) w) in
  fst (async_step_mobile_otp (Some i) w) =
    inr (ShowForm "mobile_otp"
           [{| field_key := "otp"; field_default := None; field_type := VolStr |}]
           (Some {["base" := "invalid_otp"]})) /\
  self w1 = self w /\
  async_step_mobile_otp (Some j) w1 =
    (inr (CreateEntry (fmt (_mobile (self w)) +:+ " (" +:+ fmt (_region (self w)) +:+ ")")
            (entry_data (_region (self w)) auth_info)),
     {| wiz_env := e2; self := self w;
        sdk_calls := sdk_calls w ++ [CallVerify [otp1]; CallVerify [otp2]] |}).
Proof.
  intros Hi Hj Hv Hrej Hacc w1. subst w1.
  rewrite (mobile_otp_run _ _ _ _ _ _ Hi Hv Hrej). cbn [fst snd].
  split; [reflexivity|]. split; [reflexivity|].
  rewrite (mobile_otp_run (after_call w (CallVerify [otp1]) e1 (self w))
             j otp2 verify (inr auth_info) e2 Hj Hv Hacc).
  unfold after_call. cbn. rewrite <- app_assoc. reflexivity.
Qed.

(** X16: on either OTP step, an exception of the verification callable
    other than [DysonLoginFailure] (a [DysonNetworkError], say) leaves the
    step as it is: no form with an error is shown and no entry is
    created. *)
Theorem otp_other_errors_propagate w i (otp : string) verify (err : exn) (e' : Env) :
  i !! CONF_OTP = Some otp ->
  _verify (self w) = Some verify ->
  err <> DysonLoginFailure ->
  (forall password,
     i !! CONF_PASSWORD = Some password ->
     verify [otp; password] (wiz_env w) = (inl err, e') ->
     fst (async_step_email_otp (Some i) w) = inl err) /\
  (verify [otp] (wiz_env w) = (inl err, e') ->
   fst (async_step_mobile_otp (Some i) w) = inl err).
Proof.
  intros Ho Hv Hne. split.
  - intros password Hp Hcall.
    rewrite (email_otp_run _ _ _ _ _ _ _ Ho Hp Hv Hcall).
    destruct err; try reflexivity; contradiction.
  - intros Hcall.
    rewrite (mobile_otp_run _ _ _ _ _ _ Ho Hv Hcall).
    destruct err; try reflexivity; contradiction.
Qed.

(** X17: the email branch from end to end.  A region other than ["CN"] on
    the [user] step, an email that passes the uniqueness checks and for
    which the login call returns a callable, and a code and password the
    callable accepts: the three steps answer with the email form, the email
    OTP form and a created entry titled with the email and the region, whose
    data holds the region and the payload; the account client was called
    twice, to log in and to verify. *)
Theorem email_branch_end_to_end w i0 i1 i2 (region email otp password : string)
    verify (auth_info : @Value Auth) (e2 e3 e4 : Env) :
  i0 !! CONF_REGION = Some region ->
  region <> "CN" ->
  i1 !! CONF_EMAIL = Some email ->
  email_gate_open w email e2 ->
  login_email_otp (DysonAccount VNone) email (Some region) e2 = (inr verify, e3) ->
  i2 !! CONF_OTP = Some otp ->
  i2 !! CONF_PASSWORD = Some password ->
  verify [otp; password] e3 = (inr auth_info, e4) ->
  let w1 := snd (async_step_user (Some i0) w) in
  let w2 := snd (async_step_email (Some i1) w1) in
  let w3 := snd (async_step_email_otp (Some i2) w2) in
  fst (async_step_user (Some i0) w) = inr (email_form None ∅) /\
  fst (async_step_email (Some i1) w1) = inr (email_otp_form ∅) /\
  fst (async_step_email_otp (Some i2) w2) =
    inr (CreateEntry (email +:+ " (" +:+ region +:+ ")")
           {["region" := VStr region; "auth" := auth_info]}) /\
  sdk_calls w3 =
    sdk_calls w ++ [CallLoginEmailOtp email (Some region); CallVerify [otp; password]].
Proof.
  intros H0 Hne H1 Hgate Hlogin Ho Hp Hcall w1 w2 w3. subst w3 w2 w1.
  rewrite (user_step_run _ _ _ H0).
  rewrite bool_decide_eq_false_2 by exact Hne. cbn [fst snd].
  split; [reflexivity|].
  set (w1 := {| wiz_env := wiz_env w; self := set_region (Some region) (self w);
                sdk_calls := sdk_calls w |}).
  rewrite (email_step_login w1 i1 email e2 e3 (inr verify) H1 Hgate Hlogin).
  cbn [fst snd].
  split; [reflexivity|].
  set (w2 := after_call w1 (CallLoginEmailOtp email (_region (self w1))) e3
               (set_email (Some email) (set_verify (Some verify) (self w1)))).
  rewrite (email_otp_run w2 i2 otp password verify (inr auth_info) e4
             Ho Hp eq_refl Hcall).
  cbn [fst snd].
  split; [reflexivity|].
  unfold after_call, w2, after_call, w1. cbn. rewrite <- app_assoc. reflexivity.
Qed.

(** X18: the mobile branch from end to end.  The region ["CN"] on the
    [user] step, a number for which the login call returns a callable, and
    a code the callable accepts: the three steps answer with the mobile
    form, the mobile OTP form and a created entry titled with the number in
    its international form and the region, whose data holds the region
    ["CN"] and the payload. *)
Theorem mobile_branch_end_to_end w i0 i1 i2 (mobile otp : string)
    verify (auth_info : @Value Auth) (e1 e2 : Env) :
  i0 !! CONF_REGION = Some "CN" ->
  i1 !! CONF_MOBILE = Some mobile ->
  login_mobile_otp (DysonAccountCN VNone) (normalize_mobile mobile) (wiz_env w)
    = (inr verify, e1) ->
  i2 !! CONF_OTP = Some otp ->
  verify [otp] e1 = (inr auth_info, e2) ->
  let w1 := snd (async_step_user (Some i0) w) in
  let w2 := snd (async_step_mobile (Some i1) w1) in
  let w3 := snd (async_step_mobile_otp (Some i2) w2) in
  fst (async_step_user (Some i0) w) = inr (mobile_form None ∅) /\
  fst (async_step_mobile (Some i1) w1) = inr (mobile_otp_form ∅) /\
  fst (async_step_mobile_otp (Some i2) w2) =
    inr (CreateEntry (normalize_mobile mobile +:+ " (CN)")
           {["region" := VStr "CN"; "auth" := auth_info]}) /\
  sdk_calls w3 =
    sdk_calls w ++ [CallLoginMobileOtp (normalize_mobile mobile); CallVerify [otp]].
Proof.
  intros H0 H1 Hlogin Ho Hcall w1 w2 w3. subst w3 w2 w1.
  rewrite (user_step_run _ _ _ H0).
  rewrite bool_decide_eq_true_2 by reflexivity. cbn [fst snd].
  split; [reflexivity|].
  set (w1 := {| wiz_env := wiz_env w; self := set_region (Some "CN") (self w);
                sdk_calls := sdk_calls w |}).
  rewrite (mobile_step_login w1 i1 mobile e1 (inr verify) H1 Hlogin).
  cbn [fst snd].
  split; [reflexivity|].
  set (w2 := after_call w1 (CallLoginMobileOtp (normalize_mobile mobile)) e1
               (set_mobile (Some (normalize_mobile mobile))
                  (set_verify (Some verify) (self w1)))).
  rewrite (mobile_otp_run w2 i2 otp verify (inr auth_info) e2 Ho eq_refl Hcall).
  cbn [fst snd].
  split; [reflexivity|].
  unfold after_call, w2, after_call, w1. cbn. rewrite <- app_assoc. reflexivity.
Qed.

(** X19: whatever number is submitted on the mobile step and whatever the
    login call answers, [login_mobile_otp] is called exactly once, with a
    number that starts with ["+"]; submitting that number again would send
    it unchanged. *)
Theorem mobile_login_number_has_plus w i (mobile : string) :
  i !! CONF_MOBILE = Some mobile ->
  exists sent,
    sdk_calls (snd (async_step_mobile (Some i) w)) =
      sdk_calls w ++ [CallLoginMobileOtp sent] /\
    String.prefix "+" sent = true /\
    normalize_mobile sent = sent.
Proof.
  intros Hi. exists (normalize_mobile mobile).
  destruct (login_mobile_otp (DysonAccountCN VNone) (normalize_mobile mobile)
              (wiz_env w)) as [r e'] eqn:Hlogin.
  rewrite (mobile_step_login _ _ _ _ _ Hi Hlogin).
  split; [destruct r as [[]|]; reflexivity|].
  split; [apply normalize_mobile_prefix|].
  unfold normalize_mobile at 1. rewrite normalize_mobile_prefix. reflexivity.
Qed.

(** X20: an entry the wizard creates can be set up.  Whenever one of the
    OTP steps returns a created entry, an entry with that data has both
    keys [async_setup_entry] reads, and the account client built from it is
    [DysonAccountCN] exactly when the flow's region is ["CN"], and
    [DysonAccount] otherwise, on the payload the verification returned. *)
Theorem wizard_entry_sets_up w (info : option (gmap string string)) (t : string)
    (d : gmap string (@Value Auth)) (entry : @ConfigEntry Auth)
    (h : @Hass Auth Device Env) :
  fst (async_step_email_otp info w) = inr (CreateEntry t d) \/
  fst (async_step_mobile_otp info w) = inr (CreateEntry t d) ->
  data entry = d ->
  exists auth_info,
    d !! CONF_AUTH = Some auth_info /\
    make_account entry h =
      (inr (if bool_decide (_region (self w) = Some "CN")
            then DysonAccountCN auth_info else DysonAccount auth_info), h).
Proof.
  intros Hcreated Hdata.
  assert (Hd : exists auth_info, d = entry_data (_region (self w)) auth_info).
  { destruct Hcreated as [Hc|Hc];
      [apply (email_otp_created _ _ _ _ Hc)|apply (mobile_otp_created _ _ _ _ Hc)]. }
  destruct Hd as (auth_info & ->). exists auth_info.
  split; [reflexivity|].
  rewrite (make_account_lookup entry h (of_opt (_region (self w))) auth_info);
    [|rewrite Hdata; reflexivity|rewrite Hdata; reflexivity].
  destruct (_region (self w)) as [region|]; cbn [of_opt value_is_str].
  - destruct (decide (region = "CN")) as [->|Hne].
    + rewrite !bool_decide_eq_true_2 by reflexivity. reflexivity.
    + rewrite !bool_decide_eq_false_2 by congruence. reflexivity.
  - rewrite bool_decide_eq_false_2 by discriminate. reflexivity.
Qed.

End WizardSessions.

(** * The further properties at work on the scripted environment *)

Section FurtherInstances.

Import Scripted.

Lemma setup_after_async_setup_witness :
  fst (async_setup_entry gb_entry (snd (async_setup ∅ (hass fine busy)))) = inr true /\
  hass_data (snd (async_setup_entry gb_entry (snd (async_setup ∅ (hass fine busy)))))
    !! DOMAIN =
    Some {["e1" := {| DATA_ACCOUNT := DysonAccount (VAuth "token");
                      DATA_DEVICES := ["fan"; "purifier"] |}]}.
Proof.
  assert (Hr : data gb_entry !! CONF_REGION = Some (VStr "GB")) by reflexivity.
  assert (Ha : data gb_entry !! CONF_AUTH = Some (VAuth "token")) by reflexivity.
  assert (Hd : devices (account_for (VStr "GB") (VAuth "token")) fine
               = (inr ["fan"; "purifier"], fine)) by reflexivity.
  assert (Hf : async_forward_entry_setups gb_entry PLATFORMS fine = (inr tt, fine))
    by reflexivity.
  destruct (setup_after_async_setup gb_entry (hass fine busy) ∅ _ _ _ _ _ Hr Ha Hd Hf)
    as (_ & Htrue & Hdata).
  split; [exact Htrue|exact Hdata].
Defined.

Lemma setup_without_registry_raises_witness :
  async_setup_entry cn_entry (hass fine ∅) =
    (inl (KeyError "dyson_cloud"),
     {| hass_env := fine; hass_data := ∅;
        hass_tasks := [discovery_task "fan"; discovery_task "purifier"];
        hass_log := [] |}).
Proof.
  assert (Hr : data cn_entry !! CONF_REGION = Some (VStr "CN")) by reflexivity.
  assert (Ha : data cn_entry !! CONF_AUTH = Some (VAuth "token")) by reflexivity.
  assert (Hd : devices (account_for (VStr "CN") (VAuth "token")) fine
               = (inr ["fan"; "purifier"], fine)) by reflexivity.
  assert (Hdom : hass_data (hass fine ∅) !! DOMAIN = None) by reflexivity.
  exact (setup_without_registry_raises cn_entry (hass fine ∅) _ _ _ _ Hr Ha Hd Hdom).
Defined.

Lemma setup_other_listing_error_propagates_witness :
  async_setup_entry gb_entry (hass (listing_fails DysonLoginFailure) busy) =
    (inl DysonLoginFailure,
     {| hass_env := listing_fails DysonLoginFailure; hass_data := busy;
        hass_tasks := []; hass_log := [] |}).
Proof.
  assert (Hr : data gb_entry !! CONF_REGION = Some (VStr "GB")) by reflexivity.
  assert (Ha : data gb_entry !! CONF_AUTH = Some (VAuth "token")) by reflexivity.
  assert (Hd : devices (account_for (VStr "GB") (VAuth "token"))
                 (listing_fails DysonLoginFailure)
               = (inl DysonLoginFailure, listing_fails DysonLoginFailure))
    by reflexivity.
  assert (Hne : DysonLoginFailure <> DysonNetworkError) by discriminate.
  exact (setup_other_listing_error_propagates gb_entry
           (hass (listing_fails DysonLoginFailure) busy) _ _ _ _ Hr Ha Hd Hne).
Defined.

Lemma setup_missing_key_raises_witness :
  async_setup_entry bare_entry (hass fine busy) =
    (inl (KeyError "region"), hass fine busy).
Proof.
  apply (setup_missing_key_raises bare_entry (hass fine busy) "region").
  left. split; reflexivity.
Defined.

Lemma setup_keeps_other_entries_witness :
  registered (snd (async_setup_entry gb_entry (hass fine busy))) "m1"
    = Some other_stored /\
  (hass_data (snd (async_setup_entry gb_entry (hass fine busy))) !! "camera" = None \/
   exists (e' : env) (found : gmap string (gmap string (@RuntimeData string string))),
     (forall k, k <> DOMAIN -> found !! k = hass_data (hass fine busy) !! k) /\
     hass_data (snd (async_setup_entry gb_entry (hass fine busy))) !! "camera" =
       forward_writes gb_entry PLATFORMS e' found !! "camera").
Proof.
  assert (Hkey : "camera" <> DOMAIN) by discriminate.
  assert (Hid : "m1" <> entry_id gb_entry) by discriminate.
  exact (setup_keeps_other_entries gb_entry (hass fine busy) "camera" "m1" Hkey Hid).
Defined.

Lemma setup_forward_failure_keeps_stored_witness :
  fst (async_setup_entry gb_entry
         (hass (forward_fails (OtherException "PlatformError")) busy))
    = inl (OtherException "PlatformError") /\
  registered (snd (async_setup_entry gb_entry
                     (hass (forward_fails (OtherException "PlatformError")) busy))) "e1"
    = Some {| DATA_ACCOUNT := DysonAccount (VAuth "token");
              DATA_DEVICES := ["fan"; "purifier"] |} /\
  hass_tasks (snd (async_setup_entry gb_entry
                     (hass (forward_fails (OtherException "PlatformError")) busy)))
    = [discovery_task "fan"; discovery_task "purifier"].
Proof.
  assert (Hr : data gb_entry !! CONF_REGION = Some (VStr "GB")) by reflexivity.
  assert (Ha : data gb_entry !! CONF_AUTH = Some (VAuth "token")) by reflexivity.
  assert (Hd : devices (account_for (VStr "GB") (VAuth "token"))
                 (forward_fails (OtherException "PlatformError"))
               = (inr ["fan"; "purifier"],
                  forward_fails (OtherException "PlatformError"))) by reflexivity.
  assert (Hdom : hass_data (hass (forward_fails (OtherException "PlatformError")) busy)
                   !! DOMAIN = Some {["m1" := other_stored]}) by reflexivity.
  assert (Hf : async_forward_entry_setups gb_entry PLATFORMS
                 (forward_fails (OtherException "PlatformError"))
               = (inl (OtherException "PlatformError"),
                  forward_fails (OtherException "PlatformError"))) by reflexivity.
  exact (setup_forward_failure_keeps_stored gb_entry
           (hass (forward_fails (OtherException "PlatformError")) busy)
           _ _ _ _ _ _ _ Hr Ha Hd Hdom Hf).
Defined.

Lemma reload_replaces_stored_devices_witness :
  fst (async_setup_entry gb_entry
         (snd (async_unload_entry gb_entry
                 (snd (async_setup_entry gb_entry (hass fine busy)))))) = inr true /\
  hass_tasks (snd (async_setup_entry gb_entry
                     (snd (async_unload_entry gb_entry
                             (snd (async_setup_entry gb_entry (hass fine busy)))))))
    = [discovery_task "fan"; discovery_task "purifier";
       discovery_task "fan"; discovery_task "purifier"].
Proof.
  assert (Hr : data gb_entry !! CONF_REGION = Some (VStr "GB")) by reflexivity.
  assert (Ha : data gb_entry !! CONF_AUTH = Some (VAuth "token")) by reflexivity.
  assert (Hdom : hass_data (hass fine busy) !! DOMAIN = Some {["m1" := other_stored]})
    by reflexivity.
  assert (Hd : devices (account_for (VStr "GB") (VAuth "token")) fine
               = (inr ["fan"; "purifier"], fine)) by reflexivity.
  assert (Hf : async_forward_entry_setups gb_entry PLATFORMS fine = (inr tt, fine))
    by reflexivity.
  destruct (reload_replaces_stored_devices gb_entry (hass fine busy) _ _ _ _ _
              fine fine fine fine Hr Ha Hdom Hd Hf Hd Hf)
    as (_ & Htrue & _ & Htasks).
  split; [exact Htrue|exact Htasks].
Defined.

Lemma steps_missing_key_raise_witness :
  async_step_email_otp (Some email_input) (wizard fine gb_flow_otp) =
    (inl (KeyError "otp"), wizard fine gb_flow_otp) /\
  async_step_mobile_otp (Some email_input) (wizard fine gb_flow_otp) =
    (inl (KeyError "otp"), wizard fine gb_flow_otp).
Proof.
  assert (Hkey : email_input !! "otp" = None) by reflexivity.
  destruct (steps_missing_key_raise (wizard fine gb_flow_otp) email_input "otp" Hkey)
    as (_ & _ & _ & Hemail & _ & Hmobile).
  split; [exact (Hemail eq_refl)|exact (Hmobile eq_refl)].
Defined.

Lemma email_step_success_witness :
  async_step_email (Some email_input) (wizard fine gb_flow) =
    (inr (email_otp_form ∅),
     {| wiz_env := fine; self := gb_flow_otp;
        sdk_calls := [CallLoginEmailOtp "a@b.c" (Some "GB")] |}).
Proof.
  assert (Hi : email_input !! CONF_EMAIL = Some "a@b.c") by reflexivity.
  assert (Hgate : email_gate_open (wizard fine gb_flow) "a@b.c" fine).
  { split; [reflexivity|]. exists fine. split; reflexivity. }
  assert (Hlogin : login_email_otp (DysonAccount VNone) "a@b.c"
                     (_region (self (wizard fine gb_flow))) fine
                   = (inr verify, fine)) by reflexivity.
  exact (email_step_success (wizard fine gb_flow) email_input "a@b.c" verify
           fine fine Hi Hgate Hlogin).
Defined.

Lemma email_step_other_errors_propagate_witness :
  async_step_email (Some email_input)
      (wizard (login_fails DysonOTPTooFrequently) gb_flow) =
    (inl DysonOTPTooFrequently,
     {| wiz_env := login_fails DysonOTPTooFrequently; self := gb_flow;
        sdk_calls := [CallLoginEmailOtp "a@b.c" (Some "GB")] |}).
Proof.
  assert (Hi : email_input !! CONF_EMAIL = Some "a@b.c") by reflexivity.
  assert (Hgate : email_gate_open (wizard (login_fails DysonOTPTooFrequently) gb_flow)
                    "a@b.c" (login_fails DysonOTPTooFrequently)).
  { split; [reflexivity|]. exists (login_fails DysonOTPTooFrequently).
    split; reflexivity. }
  assert (Hlogin : login_email_otp (DysonAccount VNone) "a@b.c"
                     (_region (self (wizard (login_fails DysonOTPTooFrequently) gb_flow)))
                     (login_fails DysonOTPTooFrequently)
                   = (inl DysonOTPTooFrequently, login_fails DysonOTPTooFrequently))
    by reflexivity.
  assert (Hn : DysonOTPTooFrequently <> DysonNetworkError) by discriminate.
  assert (Hs : DysonOTPTooFrequently <> DysonInvalidAccountStatus) by discriminate.
  exact (email_step_other_errors_propagate
           (wizard (login_fails DysonOTPTooFrequently) gb_flow) email_input "a@b.c"
           DysonOTPTooFrequently _ _ Hi Hgate Hlogin Hn Hs).
Defined.

Lemma mobile_step_other_errors_propagate_witness :
  async_step_mobile (Some mobile_input)
      (wizard (login_fails DysonNetworkError) cn_flow) =
    (inl DysonNetworkError,
     {| wiz_env := login_fails DysonNetworkError; self := cn_flow;
        sdk_calls := [CallLoginMobileOtp "+8613800000000"] |}).
Proof.
  assert (Hi : mobile_input !! CONF_MOBILE = Some "13800000000") by reflexivity.
  assert (Hlogin : login_mobile_otp (DysonAccountCN VNone)
                     (normalize_mobile "13800000000")
                     (wiz_env (wizard (login_fails DysonNetworkError) cn_flow))
                   = (inl DysonNetworkError, login_fails DysonNetworkError))
    by reflexivity.
  assert (Hne : DysonNetworkError <> DysonOTPTooFrequently) by discriminate.
  exact (mobile_step_other_errors_propagate
           (wizard (login_fails DysonNetworkError) cn_flow) mobile_input
           "13800000000" DysonNetworkError _ Hi Hlogin Hne).
Defined.

Lemma email_step_host_abort_skips_login_witness :
  async_step_email (Some email_input)
      (wizard (host_aborts None (Some (AbortFlow "already_configured"))) gb_flow) =
    (inl (AbortFlow "already_configured"),
     wizard (host_aborts None (Some (AbortFlow "already_configured"))) gb_flow).
Proof.
  assert (Hi : email_input !! CONF_EMAIL = Some "a@b.c") by reflexivity.
  apply (email_step_host_abort_skips_login
           (wizard (host_aborts None (Some (AbortFlow "already_configured"))) gb_flow)
           email_input "a@b.c" (AbortFlow "already_configured")
           (host_aborts None (Some (AbortFlow "already_configured"))) Hi).
  - reflexivity.
  - right. exists (host_aborts None (Some (AbortFlow "already_configured"))).
    split; reflexivity.
Defined.

Lemma email_otp_rejected_then_accepted_witness :
  fst (async_step_email_otp (Some wrong_code) (wizard fine gb_flow_otp)) =
    inr (email_otp_form {["base" := "invalid_auth"]}) /\
  async_step_email_otp (Some right_code)
      (snd (async_step_email_otp (Some wrong_code) (wizard fine gb_flow_otp))) =
    (inr (CreateEntry "a@b.c (GB)" {["region" := VStr "GB"; "auth" := VAuth "token"]}),
     {| wiz_env := fine; self := gb_flow_otp;
        sdk_calls := [CallVerify ["000000"; "pw"]; CallVerify ["123456"; "pw"]] |}).
Proof.
  assert (Hi1 : wrong_code !! CONF_OTP = Some "000000") by reflexivity.
  assert (Hi2 : wrong_code !! CONF_PASSWORD = Some "pw") by reflexivity.
  assert (Hj1 : right_code !! CONF_OTP = Some "123456") by reflexivity.
  assert (Hj2 : right_code !! CONF_PASSWORD = Some "pw") by reflexivity.
  assert (Hv : _verify (self (wizard fine gb_flow_otp)) = Some verify) by reflexivity.
  assert (Hrej : verify ["000000"; "pw"] (wiz_env (wizard fine gb_flow_otp))
                 = (inl DysonLoginFailure, fine)) by reflexivity.
  assert (Hacc : verify ["123456"; "pw"] fine = (inr (VAuth "token"), fine))
    by reflexivity.
  destruct (email_otp_rejected_then_accepted (wizard fine gb_flow_otp)
              wrong_code right_code _ _ _ _ verify _ _ _
              Hi1 Hi2 Hj1 Hj2 Hv Hrej Hacc) as (Hform & _ & Hentry).
  split; [exact Hform|exact Hentry].
Defined.

Lemma mobile_otp_rejected_then_accepted_witness :
  fst (async_step_mobile_otp (Some wrong_code) (wizard fine cn_flow_otp)) =
    inr (mobile_otp_form {["base" := "invalid_otp"]}) /\
  async_step_mobile_otp (Some right_code)
      (snd (async_step_mobile_otp (Some wrong_code) (wizard fine cn_flow_otp))) =
    (inr (CreateEntry "+8613800000000 (CN)"
            {["region" := VStr "CN"; "auth" := VAuth "token"]}),
     {| wiz_env := fine; self := cn_flow_otp;
        sdk_calls := [CallVerify ["000000"]; CallVerify ["123456"]] |}).
Proof.
  assert (Hi : wrong_code !! CONF_OTP = Some "000000") by reflexivity.
  assert (Hj : right_code !! CONF_OTP = Some "123456") by reflexivity.
  assert (Hv : _verify (self (wizard fine cn_flow_otp)) = Some verify) by reflexivity.
  assert (Hrej : verify ["000000"] (wiz_env (wizard fine cn_flow_otp))
                 = (inl DysonLoginFailure, fine)) by reflexivity.
  assert (Hacc : verify ["123456"] fine = (inr (VAuth "token"), fine)) by reflexivity.
  destruct (mobile_otp_rejected_then_accepted (wizard fine cn_flow_otp)
              wrong_code right_code _ _ verify _ _ _ Hi Hj Hv Hrej Hacc)
    as (Hform & _ & Hentry).
  split; [exact Hform|exact Hentry].
Defined.

Lemma otp_other_errors_propagate_witness :
  fst (async_step_email_otp (Some wrong_code)
         (wizard (rejecting_with DysonNetworkError) gb_flow_otp))
    = inl DysonNetworkError /\
  fst (async_step_mobile_otp (Some wrong_code)
         (wizard (rejecting_with DysonNetworkError) gb_flow_otp))
    = inl DysonNetworkError.
Proof.
  assert (Ho : wrong_code !! CONF_OTP = Some "000000") by reflexivity.
  assert (Hp : wrong_code !! CONF_PASSWORD = Some "pw") by reflexivity.
  assert (Hv : _verify (self (wizard (rejecting_with DysonNetworkError) gb_flow_otp))
               = Some verify) by reflexivity.
  assert (Hne : DysonNetworkError <> DysonLoginFailure) by discriminate.
  assert (H2 : verify ["000000"; "pw"]
                 (wiz_env (wizard (rejecting_with DysonNetworkError) gb_flow_otp))
               = (inl DysonNetworkError, rejecting_with DysonNetworkError))
    by reflexivity.
  assert (H1 : verify ["000000"]
                 (wiz_env (wizard (rejecting_with DysonNetworkError) gb_flow_otp))
               = (inl DysonNetworkError, rejecting_with DysonNetworkError))
    by reflexivity.
  destruct (otp_other_errors_propagate
              (wizard (rejecting_with DysonNetworkError) gb_flow_otp) wrong_code
              "000000" verify DysonNetworkError (rejecting_with DysonNetworkError)
              Ho Hv Hne) as (Hemail & Hmobile).
  split; [exact (Hemail "pw" Hp H2)|exact (Hmobile H1)].
Defined.

Lemma email_branch_end_to_end_witness :
  fst (async_step_email_otp (Some right_code)
         (snd (async_step_email (Some email_input)
                 (snd (async_step_user (Some region_gb) (wizard fine new_flow)))))) =
    inr (CreateEntry "a@b.c (GB)" {["region" := VStr "GB"; "auth" := VAuth "token"]}) /\
  sdk_calls
    (snd (async_step_email_otp (Some right_code)
            (snd (async_step_email (Some email_input)
                    (snd (async_step_user (Some region_gb) (wizard fine new_flow)))))))
    = [CallLoginEmailOtp "a@b.c" (Some "GB"); CallVerify ["123456"; "pw"]].
Proof.
  assert (H0 : region_gb !! CONF_REGION = Some "GB") by reflexivity.
  assert (Hne : "GB" <> "CN") by discriminate.
  assert (H1 : email_input !! CONF_EMAIL = Some "a@b.c") by reflexivity.
  assert (Hgate : email_gate_open (wizard fine new_flow) "a@b.c" fine).
  { split; [reflexivity|]. exists fine. split; reflexivity. }
  assert (Hlogin : login_email_otp (DysonAccount VNone) "a@b.c" (Some "GB") fine
                   = (inr verify, fine)) by reflexivity.
  assert (Ho : right_code !! CONF_OTP = Some "123456") by reflexivity.
  assert (Hp : right_code !! CONF_PASSWORD = Some "pw") by reflexivity.
  assert (Hcall : verify ["123456"; "pw"] fine = (inr (VAuth "token"), fine))
    by reflexivity.
  destruct (email_branch_end_to_end (wizard fine new_flow) region_gb email_input
              right_code "GB" "a@b.c" "123456" "pw" verify (VAuth "token")
              fine fine fine H0 Hne H1 Hgate Hlogin Ho Hp Hcall)
    as (_ & _ & Hentry & Hcalls).
  split; [exact Hentry|exact Hcalls].
Defined.

Lemma mobile_branch_end_to_end_witness :
  fst (async_step_mobile_otp (Some right_code)
         (snd (async_step_mobile (Some mobile_input)
                 (snd (async_step_user (Some region_cn) (wizard fine new_flow)))))) =
    inr (CreateEntry "+8613800000000 (CN)"
           {["region" := VStr "CN"; "auth" := VAuth "token"]}) /\
  sdk_calls
    (snd (async_step_mobile_otp (Some right_code)
            (snd (async_step_mobile (Some mobile_input)
                    (snd (async_step_user (Some region_cn) (wizard fine new_flow)))))))
    = [CallLoginMobileOtp "+8613800000000"; CallVerify ["123456"]].
Proof.
  assert (H0 : region_cn !! CONF_REGION = Some "CN") by reflexivity.
  assert (H1 : mobile_input !! CONF_MOBILE = Some "13800000000") by reflexivity.
  assert (Hlogin : login_mobile_otp (DysonAccountCN VNone)
                     (normalize_mobile "13800000000")
                     (wiz_env (wizard fine new_flow))
                   = (inr verify, fine)) by reflexivity.
  assert (Ho : right_code !! CONF_OTP = Some "123456") by reflexivity.
  assert (Hcall : verify ["123456"] fine = (inr (VAuth "token"), fine)) by reflexivity.
  destruct (mobile_branch_end_to_end (wizard fine new_flow) region_cn mobile_input
              right_code "13800000000" "123456" verify (VAuth "token")
              fine fine H0 H1 Hlogin Ho Hcall)
    as (_ & _ & Hentry & Hcalls).
  split; [exact Hentry|exact Hcalls].
Defined.

Lemma mobile_login_number_has_plus_witness :
  exists sent,
    sdk_calls (snd (async_step_mobile (Some mobile_input) (wizard fine cn_flow))) =
      [] ++ [CallLoginMobileOtp sent] /\
    String.prefix "+" sent = true /\
    normalize_mobile sent = sent.
Proof.
  assert (Hi : mobile_input !! CONF_MOBILE = Some "13800000000") by reflexivity.
  exact (mobile_login_number_has_plus (wizard fine cn_flow) mobile_input
           "13800000000" Hi).
Defined.

Lemma wizard_entry_sets_up_witness :
  exists auth_info,
    entry_data (Some "CN") (VAuth "token") !! CONF_AUTH = Some auth_info /\
    make_account cn_entry (hass fine busy) =
      (inr (DysonAccountCN auth_info), hass fine busy).
Proof.
  assert (Hcreated :
    fst (async_step_email_otp (Some right_code) (wizard fine cn_flow_otp)) =
      inr (CreateEntry "+8613800000000 (CN)" (entry_data (Some "CN") (VAuth "token"))) \/
    fst (async_step_mobile_otp (Some right_code) (wizard fine cn_flow_otp)) =
      inr (CreateEntry "+8613800000000 (CN)" (entry_data (Some "CN") (VAuth "token")))).
  { right. reflexivity. }
  assert (Hdata : data cn_entry = entry_data (Some "CN") (VAuth "token"))
    by reflexivity.
  exact (wizard_entry_sets_up (wizard fine cn_flow_otp) (Some right_code)
           "+8613800000000 (CN)" (entry_data (Some "CN") (VAuth "token"))
           cn_entry (hass fine busy) Hcreated Hdata).
Defined.

End FurtherInstances.
